(** * The API client of the reservation front end (front-end/src/utils/api.js)

    A shallow embedding of [fetchJson] and of the eleven exported operations
    built on it, with the part of the JavaScript runtime they rely on:
    property access, truthiness, string conversion, [JSON.stringify],
    [Object.entries], [URLSearchParams] and promises. *)

From Stdlib Require Import ZArith List String Ascii Bool Lia DecimalString.
Import ListNotations.
Local Open Scope string_scope.
Local Open Scope Z_scope.
Set Warnings "-register-all".


(** ** JavaScript values *)

Module JS.

(** The values that reach this file: JSON data and [undefined]. Numbers are
    the integers (identifiers, counts, status codes); strings are sequences of
    UTF-8 bytes; the fields of an object are its own enumerable properties in
    enumeration order, each key once. *)
Inductive value : Type :=
| VUndefined
| VNull
| VBool (b : bool)
| VNum (n : Z)
| VStr (s : string)
| VArr (elements : list value)
| VObj (fields : list (string * value)).

(** What a [throw] or a rejected promise carries: an [Error] instance (a
    [TypeError], a [SyntaxError], the [DOMException] of an abort) with its
    [name] and [message], or any other value. *)
Inductive exn : Type :=
| Error (name message : string)
| Thrown (v : value).

(** The outcome of evaluating an expression, and of awaiting a promise. *)
Inductive completion (A : Type) : Type :=
| Return (a : A)
| Throw (e : exn).
Arguments Return {A} a.
Arguments Throw {A} e.

Definition TypeError (message : string) : exn := Error "TypeError" message.

Definition bindC {A B : Type} (c : completion A) (k : A -> completion B) : completion B :=
  match c with
  | Return a => k a
  | Throw e => Throw e
  end.

(** Own property lookup in a list of fields. *)
Fixpoint own (fields : list (string * value)) (key : string) : option value :=
  match fields with
  | [] => None
  | (k, v) :: rest => if String.eqb k key then Some v else own rest key
  end.

(** [v.key] for a key that no built-in prototype defines ([error], [data],
    [table_id], [reservation_id], [name]): the own property of an object,
    [undefined] on any other value that has properties, a [TypeError] on
    [undefined] and [null]. *)
Definition Get (v : value) (key : string) : completion value :=
  match v with
  | VUndefined => Throw (TypeError ("Cannot read properties of undefined (reading " ++ key ++ ")"))
  | VNull => Throw (TypeError ("Cannot read properties of null (reading " ++ key ++ ")"))
  | VObj fields =>
      match own fields key with
      | Some x => Return x
      | None => Return VUndefined
      end
  | _ => Return VUndefined
  end.

(** [error.key] in a [catch] clause. *)
Definition GetExn (e : exn) (key : string) : completion value :=
  match e with
  | Error name message =>
      if String.eqb key "name" then Return (VStr name)
      else if String.eqb key "message" then Return (VStr message)
      else Return VUndefined
  | Thrown v => Get v key
  end.

(** ToBoolean: what [if (v)] and [v || w] test. *)
Definition truthy (v : value) : bool :=
  match v with
  | VUndefined | VNull => false
  | VBool b => b
  | VNum n => negb (n =? 0)
  | VStr s => negb (String.eqb s EmptyString)
  | VArr _ | VObj _ => true
  end.

(** [v !== s] for a string literal [s]. *)
Definition strict_neq_string (v : value) (s : string) : bool :=
  match v with
  | VStr t => negb (String.eqb t s)
  | _ => true
  end.

(** Number::toString on an integer, in the range where it writes plain
    decimal digits (below 10^21 in absolute value). *)
Definition decimal (n : Z) : string := NilZero.string_of_int (Z.to_int n).

(** ToString, as a template literal applies it. An array joins its elements
    with commas, [undefined] and [null] elements giving the empty string; a
    plain object answers through [Object.prototype.toString], unless an own
    data property shadows that method, which leaves no callable conversion. *)
Fixpoint ToString (v : value) : completion string :=
  match v with
  | VUndefined => Return "undefined"
  | VNull => Return "null"
  | VBool b => Return (if b then "true" else "false")
  | VNum n => Return (decimal n)
  | VStr s => Return s
  | VArr elements =>
      (fix join (l : list value) : completion string :=
         match l with
         | [] => Return EmptyString
         | x :: rest =>
             bindC (match x with
                    | VUndefined | VNull => Return EmptyString
                    | _ => ToString x
                    end)
               (fun s =>
                  match rest with
                  | [] => Return s
                  | _ => bindC (join rest) (fun r => Return (s ++ "," ++ r))
                  end)
         end) elements
  | VObj fields =>
      match own fields "toString" with
      | Some _ => Throw (TypeError "Cannot convert object to primitive value")
      | None => Return "[object Object]"
      end
  end.

(** [v.toString()]: there is no method to call on [undefined] and [null]. *)
Definition toString (v : value) : completion string :=
  match v with
  | VUndefined => Throw (TypeError "Cannot read properties of undefined (reading toString)")
  | VNull => Throw (TypeError "Cannot read properties of null (reading toString)")
  | VObj fields =>
      match own fields "toString" with
      | Some _ => Throw (TypeError "value.toString is not a function")
      | None => Return "[object Object]"
      end
  | _ => ToString v
  end.

(** *** JSON.stringify *)

Definition hex_digit (upper : bool) (n : nat) : ascii :=
  if Nat.ltb n 10 then ascii_of_nat (48 + n)
  else ascii_of_nat ((if upper then 55 else 87) + n).

Definition hex_byte (upper : bool) (c : ascii) : string :=
  let n := nat_of_ascii c in
  String (hex_digit upper (Nat.div n 16)) (String (hex_digit upper (Nat.modulo n 16)) EmptyString).

Definition dquote : string := String (ascii_of_nat 34) EmptyString.
Definition backslash : string := String (ascii_of_nat 92) EmptyString.

(** QuoteJSONString, one byte at a time: the quote, the backslash and the
    control characters are escaped, every other byte is kept. *)
Definition json_escape (c : ascii) : string :=
  let n := nat_of_ascii c in
  if Nat.eqb n 34 then backslash ++ dquote
  else if Nat.eqb n 92 then backslash ++ backslash
  else if Nat.eqb n 8 then backslash ++ "b"
  else if Nat.eqb n 9 then backslash ++ "t"
  else if Nat.eqb n 10 then backslash ++ "n"
  else if Nat.eqb n 12 then backslash ++ "f"
  else if Nat.eqb n 13 then backslash ++ "r"
  else if Nat.ltb n 32 then backslash ++ "u00" ++ hex_byte false c
  else String c EmptyString.

Fixpoint json_escape_all (s : string) : string :=
  match s with
  | EmptyString => EmptyString
  | String c rest => json_escape c ++ json_escape_all rest
  end.

Definition json_quote (s : string) : string := dquote ++ json_escape_all s ++ dquote.

(** [JSON.stringify(v)]; [None] is the [undefined] it answers for [undefined].
    A property whose value is [undefined] is left out of an object, an
    [undefined] element of an array is written [null]. *)
Fixpoint JSON_stringify (v : value) : option string :=
  match v with
  | VUndefined => None
  | VNull => Some "null"
  | VBool b => Some (if b then "true" else "false")
  | VNum n => Some (decimal n)
  | VStr s => Some (json_quote s)
  | VArr elements =>
      Some ("[" ++ String.concat ","
                     (map (fun x => match JSON_stringify x with
                                    | Some s => s
                                    | None => "null"
                                    end) elements) ++ "]")
  | VObj fields =>
      Some ("{" ++ String.concat ","
                     (flat_map (fun kv => match JSON_stringify (snd kv) with
                                          | Some s => [json_quote (fst kv) ++ ":" ++ s]
                                          | None => []
                                          end) fields) ++ "}")
  end.

(** *** Object.entries *)

Fixpoint indexed {A : Type} (from : Z) (l : list A) : list (string * A) :=
  match l with
  | [] => []
  | x :: rest => (decimal from, x) :: indexed (from + 1) rest
  end.

Fixpoint characters (s : string) : list value :=
  match s with
  | EmptyString => []
  | String c rest => VStr (String c EmptyString) :: characters rest
  end.

(** [Object.entries(v)]: the fields of an object, the indexed elements of an
    array and the indexed characters of a string (of an ASCII string, in this
    model of strings), nothing for a boolean or a number, a [TypeError] for
    [undefined] and [null]. *)
Definition Object_entries (v : value) : completion (list (string * value)) :=
  match v with
  | VUndefined | VNull => Throw (TypeError "Cannot convert undefined or null to object")
  | VBool _ | VNum _ => Return []
  | VStr s => Return (indexed 0 (characters s))
  | VArr elements => Return (indexed 0 elements)
  | VObj fields => Return fields
  end.

(** *** URL and URLSearchParams *)

(** The application/x-www-form-urlencoded byte serializer: letters, digits
    and [* - . _] are kept, a space becomes [+], any other byte is
    percent-encoded. *)
Definition form_keeps (n : nat) : bool :=
  (Nat.leb 48 n && Nat.leb n 57) || (Nat.leb 65 n && Nat.leb n 90)
  || (Nat.leb 97 n && Nat.leb n 122)
  || Nat.eqb n 42 || Nat.eqb n 45 || Nat.eqb n 46 || Nat.eqb n 95.

Definition form_encode_byte (c : ascii) : string :=
  let n := nat_of_ascii c in
  if Nat.eqb n 32 then "+"
  else if form_keeps n then String c EmptyString
  else "%" ++ hex_byte true c.

Fixpoint form_encode (s : string) : string :=
  match s with
  | EmptyString => EmptyString
  | String c rest => form_encode_byte c ++ form_encode rest
  end.

Definition form_serialize (params : list (string * string)) : string :=
  String.concat "&" (map (fun kv => form_encode (fst kv) ++ "=" ++ form_encode (snd kv)) params).

(** What the URL parser makes of a string that it accepts: the serialized
    URL, the part of it before the query, the entries of the query it came
    with, and the fragment with its [#], empty when there is none. *)
Record parsed_url : Type := {
  serialized : string;
  before_query : string;
  query_entries : list (string * string);
  fragment : string
}.

(** A URL that the parser hands back as it was written, and that has no
    query and no fragment. *)
Definition plain_url (href : string) : parsed_url :=
  {| serialized := href; before_query := href; query_entries := []; fragment := EmptyString |}.

(** What [fetch] is given as its first argument: a string, or a [URL] object
    made by [new URL(...)], with the search parameters appended to it
    since. *)
Inductive url : Type :=
| UrlString (href : string)
| UrlObject (parsed : parsed_url) (appended : list (string * string)).

(** [new URL(href)], over the URL parser of the runtime: the parser throws a
    [TypeError] on a string that is no absolute URL, and it may rewrite the
    one it accepts (host in lower case, default port dropped). *)
Definition URL_new (parse : string -> completion parsed_url) (href : string)
  : completion url :=
  bindC (parse href) (fun parsed => Return (UrlObject parsed [])).

Definition searchParams_append (u : url) (key val : string) : url :=
  match u with
  | UrlString href => UrlString href
  | UrlObject parsed appended => UrlObject parsed (appended ++ [(key, val)])%list
  end.

(** The address the request goes to. A [URL] object nothing was appended
    to keeps its serialization; an append rewrites the query as the
    serialization of all the entries, those it came with first. *)
Definition url_href (u : url) : string :=
  match u with
  | UrlString href => href
  | UrlObject parsed [] => serialized parsed
  | UrlObject parsed appended =>
      before_query parsed ++ "?"
      ++ form_serialize (query_entries parsed ++ appended) ++ fragment parsed
  end.

End JS.

Import JS.

(** ** Promises and effects *)

(** The [options] object given to [fetch]; [None] is a key the object literal
    leaves out, or [undefined]. A signal is named by the number of its
    [AbortController]. *)
Record options : Type := {
  opt_method : option string;
  opt_headers : option (list (string * string));
  opt_body : option string;
  opt_signal : option nat
}.

(** [fetch]'s default for an [options] object with no [method]. *)
Definition http_method (o : options) : string :=
  match opt_method o with
  | Some m => m
  | None => "GET"
  end.

(** What [await fetch(...)] hands back: a status and the settled result of
    [response.json()]. *)
Record response : Type := {
  status : Z;
  json : completion value
}.

(** The transport and the server behind it: the outcome of each request. *)
Definition network : Type := url -> options -> completion response.

(** What a call does to the outside: requests issued, bodies read, and
    [console.error(error.stack)] for an error. *)
Inductive event : Type :=
| Fetch (u : url) (o : options)
| ResponseJson
| ConsoleError (error : exn).

(** A computation that may throw, with the events it caused so far. *)
Definition M (A : Type) : Type := (list event * completion A)%type.

Definition ret {A : Type} (a : A) : M A := ([], Return a).
Definition throw {A : Type} (e : exn) : M A := ([], Throw e).
Definition lift {A : Type} (c : completion A) : M A := ([], c).
Definition emit (e : event) : M unit := ([e], Return tt).

Definition bind {A B : Type} (m : M A) (k : A -> M B) : M B :=
  match m with
  | (t, Return a) => let (t', r) := k a in ((t ++ t')%list, r)
  | (t, Throw e) => (t, Throw e)
  end.

Notation "x <- m ;; k" := (bind m (fun x => k))
  (at level 61, m at next level, right associativity).
Notation "m ;; k" := (bind m (fun _ => k))
  (at level 61, right associativity).

(** [try { body } catch (error) { handler }] *)
Definition try_catch {A : Type} (body : M A) (handler : exn -> M A) : M A :=
  match body with
  | (t, Throw e) => let (t', r) := handler e in ((t ++ t')%list, r)
  | (t, Return a) => (t, Return a)
  end.

(** The state a promise settles in. *)
Inductive settled : Type :=
| Fulfilled (v : value)
| Rejected (reason : exn).

(** A promise, run to the end: the events of the work behind it and its
    final state. *)
Definition promise : Type := (list event * settled)%type.

(** An [async] function. Its body returns a plain value ([Fulfilled]) or a
    promise that is already rejected, as [return Promise.reject(...)] does; an
    exception that leaves the body rejects the promise. *)
Definition async (body : M settled) : promise :=
  match body with
  | (t, Return s) => (t, s)
  | (t, Throw e) => (t, Rejected e)
  end.

(** [await p] *)
Definition await (p : promise) : M value :=
  match p with
  | (t, Fulfilled v) => (t, Return v)
  | (t, Rejected e) => (t, Throw e)
  end.

(** [p.then(f)] for a synchronous [f]. *)
Definition then_ (p : promise) (f : value -> completion value) : promise :=
  match p with
  | (t, Fulfilled v) =>
      match f v with
      | Return w => (t, Fulfilled w)
      | Throw e => (t, Rejected e)
      end
  | (t, Rejected e) => (t, Rejected e)
  end.

Definition trace (p : promise) : list event := fst p.
Definition outcome (p : promise) : settled := snd p.

(** The requests among the events, in order. *)
Fixpoint requests (t : list event) : list (url * options) :=
  match t with
  | [] => []
  | Fetch u o :: rest => (u, o) :: requests rest
  | _ :: rest => requests rest
  end.

(** ** api.js *)

Section Api.

(** [process.env.REACT_APP_API_BASE_URL] *)
Variable REACT_APP_API_BASE_URL : option string.

(** The URL parser behind [new URL(...)]. *)
Variable URL_parse : string -> completion parsed_url.

(** The default export of [./format-reservation-date], a module that is not
    among the sources: a function from the value it is given to the value it
    returns, or the exception it throws. *)
Variable format_reservation_date : value -> completion value.

Variable net : network.

(** [import formatReservationDate from "./format-reservation-date"] *)
Definition formatReservationDate : value -> completion value := format_reservation_date.

(** [import formatReservationTime from "./format-reservation-date"]: the
    default export of the same module under a second name. *)
Definition formatReservationTime : value -> completion value := format_reservation_date.

(** [process.env.REACT_APP_API_BASE_URL || "http://localhost:5001"] *)
Definition API_BASE_URL : string :=
  match REACT_APP_API_BASE_URL with
  | Some s => if truthy (VStr s) then s else "http://localhost:5001"
  | None => "http://localhost:5001"
  end.

Definition Headers_append (h : list (string * string)) (name val : string) : list (string * string) :=
  (h ++ [(name, val)])%list.

Definition headers : list (string * string) :=
  Headers_append [] "Content-Type" "application/json".

(** [await fetch(url, options)] *)
Definition fetch (u : url) (o : options) : M response := ([Fetch u o], net u o).

(** [await response.json()] *)
Definition response_json (r : response) : M value := ([ResponseJson], json r).

Definition console_error_stack (error : exn) : M unit := emit (ConsoleError error).

Definition fetchJson (u : url) (o : options) (onCancel : value) : promise :=
  async
    (try_catch
       (response <- fetch u o ;;
        if status response =? 204 then ret (Fulfilled VNull)
        else
          payload <- response_json response ;;
          error <- lift (Get payload "error") ;;
          if truthy error
          then ret (Rejected (Thrown (VObj [("message", error)])))
          else
            data <- lift (Get payload "data") ;;
            ret (Fulfilled data))
       (fun error =>
          name <- lift (GetExn error "name") ;;
          if strict_neq_string name "AbortError"
          then console_error_stack error ;; throw error
          else ret (Fulfilled onCancel))).

(** [return await p] *)
Definition return_await (p : promise) : M settled :=
  v <- await p ;; ret (Fulfilled v).

(** [entries.forEach(([key, value]) => url.searchParams.append(key, value.toString()))] *)
Fixpoint forEach_append (entries : list (string * value)) (u : url) : completion url :=
  match entries with
  | [] => Return u
  | (key, v) :: rest =>
      bindC (toString v) (fun s => forEach_append rest (searchParams_append u key s))
  end.

Definition listReservations (params : value) (signal : option nat) : promise :=
  async
    (u0 <- lift (URL_new URL_parse (API_BASE_URL ++ "/reservations")) ;;
     entries <- lift (Object_entries params) ;;
     u <- lift (forEach_append entries u0) ;;
     return_await
       (then_
          (then_
             (fetchJson u
                {| opt_method := None; opt_headers := Some headers;
                   opt_body := None; opt_signal := signal |}
                (VArr []))
             formatReservationDate)
          formatReservationTime)).

Definition searchByPhone (mobile_number : value) (signal : option nat) : promise :=
  async
    (n <- lift (ToString mobile_number) ;;
     let u := UrlString (API_BASE_URL ++ "/reservations?mobile_number=" ++ n) in
     return_await
       (fetchJson u
          {| opt_method := None; opt_headers := None; opt_body := None; opt_signal := signal |}
          VUndefined)).

Definition createReservation (reservation : value) (signal : option nat) : promise :=
  async
    (let u := UrlString (API_BASE_URL ++ "/reservations") in
     let o := {| opt_method := Some "POST"; opt_headers := Some headers;
                 opt_body := JSON_stringify (VObj [("data", reservation)]);
                 opt_signal := signal |} in
     return_await (fetchJson u o (VObj []))).

Definition readReservation (reservation_id : value) (signal : option nat) : promise :=
  async
    (id <- lift (ToString reservation_id) ;;
     let u := UrlString (API_BASE_URL ++ "/reservations/" ++ id) in
     return_await
       (fetchJson u
          {| opt_method := None; opt_headers := None; opt_body := None; opt_signal := signal |}
          VUndefined)).

Definition seatReservation (reservation_id table : value) (signal : option nat) : promise :=
  async
    (table_id <- lift (Get table "table_id") ;;
     id <- lift (ToString table_id) ;;
     let u := UrlString (API_BASE_URL ++ "/tables/" ++ id ++ "/seat") in
     let o := {| opt_method := Some "PUT"; opt_headers := Some headers;
                 opt_body := JSON_stringify
                               (VObj [("data", VObj [("reservation_id", reservation_id)])]);
                 opt_signal := signal |} in
     return_await (fetchJson u o (VObj []))).

Definition updateReservation (reservation : value) (signal : option nat) : promise :=
  async
    (reservation_id <- lift (Get reservation "reservation_id") ;;
     id <- lift (ToString reservation_id) ;;
     let u := UrlString (API_BASE_URL ++ "/reservations/" ++ id) in
     let o := {| opt_method := Some "PUT"; opt_headers := Some headers;
                 opt_body := JSON_stringify (VObj [("data", reservation)]);
                 opt_signal := signal |} in
     return_await (fetchJson u o (VObj []))).

Definition updateReservationStatus (reservation_id status : value) (signal : option nat) : promise :=
  async
    (id <- lift (ToString reservation_id) ;;
     let u := UrlString (API_BASE_URL ++ "/reservations/" ++ id ++ "/status") in
     let o := {| opt_method := Some "PUT"; opt_headers := Some headers;
                 opt_body := JSON_stringify (VObj [("data", VObj [("status", status)])]);
                 opt_signal := signal |} in
     return_await (fetchJson u o (VObj []))).

Definition listTables (signal : option nat) : promise :=
  async
    (let u := UrlString (API_BASE_URL ++ "/tables") in
     return_await
       (fetchJson u
          {| opt_method := None; opt_headers := None; opt_body := None; opt_signal := signal |}
          VUndefined)).

Definition createTable (table : value) (signal : option nat) : promise :=
  async
    (let u := UrlString (API_BASE_URL ++ "/tables") in
     let o := {| opt_method := Some "POST"; opt_headers := Some headers;
                 opt_body := JSON_stringify (VObj [("data", table)]);
                 opt_signal := signal |} in
     return_await (fetchJson u o (VObj []))).

Definition readTableByReservation (reservation_id : value) (signal : option nat) : promise :=
  async
    (id <- lift (ToString reservation_id) ;;
     let u := UrlString (API_BASE_URL ++ "/tables/seated/" ++ id) in
     return_await
       (fetchJson u
          {| opt_method := None; opt_headers := None; opt_body := None; opt_signal := signal |}
          VUndefined)).

Definition finishTable (table : value) (signal : option nat) : promise :=
  async
    (table_id <- lift (Get table "table_id") ;;
     id <- lift (ToString table_id) ;;
     let u := UrlString (API_BASE_URL ++ "/tables/" ++ id ++ "/seat") in
     let o := {| opt_method := Some "DELETE"; opt_headers := Some headers;
                 opt_body := None; opt_signal := signal |} in
     return_await (fetchJson u o (VObj []))).

(** *** The exported operations as one type of calls *)

Inductive call : Type :=
| ListReservations (params : value)
| SearchByPhone (mobile_number : value)
| CreateReservation (reservation : value)
| ReadReservation (reservation_id : value)
| SeatReservation (reservation_id table : value)
| UpdateReservation (reservation : value)
| UpdateReservationStatus (reservation_id status : value)
| ListTables
| CreateTable (table : value)
| ReadTableByReservation (reservation_id : value)
| FinishTable (table : value).

Definition run (c : call) (signal : option nat) : promise :=
  match c with
  | ListReservations params => listReservations params signal
  | SearchByPhone mobile_number => searchByPhone mobile_number signal
  | CreateReservation reservation => createReservation reservation signal
  | ReadReservation reservation_id => readReservation reservation_id signal
  | SeatReservation reservation_id table => seatReservation reservation_id table signal
  | UpdateReservation reservation => updateReservation reservation signal
  | UpdateReservationStatus reservation_id status =>
      updateReservationStatus reservation_id status signal
  | ListTables => listTables signal
  | CreateTable table => createTable table signal
  | ReadTableByReservation reservation_id => readTableByReservation reservation_id signal
  | FinishTable table => finishTable table signal
  end.

(** [listReservations] is the one operation that hands its result to the
    formatters. *)
Definition formats (c : call) : bool :=
  match c with
  | ListReservations _ => true
  | _ => false
  end.

(** [.then(formatReservationDate).then(formatReservationTime)] *)
Definition formatted (p : promise) : promise :=
  then_ (then_ p formatReservationDate) formatReservationTime.

(** The third argument each operation gives to [fetchJson]. *)
Definition onCancel_of (c : call) : value :=
  match c with
  | ListReservations _ => VArr []
  | CreateReservation _ | SeatReservation _ _ | UpdateReservation _
  | UpdateReservationStatus _ _ | CreateTable _ | FinishTable _ => VObj []
  | SearchByPhone _ | ReadReservation _ | ListTables | ReadTableByReservation _ => VUndefined
  end.

(** The operations whose [options] name the shared [headers] object. *)
Definition names_headers (c : call) : bool :=
  match c with
  | SearchByPhone _ | ReadReservation _ | ListTables | ReadTableByReservation _ => false
  | _ => true
  end.

(** The request an operation builds before it calls [fetchJson], or the
    exception that stops it on the way; read off the definitions above and
    tied to them by [run_request_of]. *)
Definition request_of (c : call) (signal : option nat) : completion (url * options) :=
  let base := API_BASE_URL in
  let bare := {| opt_method := None; opt_headers := None; opt_body := None;
                 opt_signal := signal |} in
  let writing (method : string) (data : value) :=
    {| opt_method := Some method; opt_headers := Some headers;
       opt_body := JSON_stringify (VObj [("data", data)]); opt_signal := signal |} in
  match c with
  | ListReservations params =>
      bindC (URL_new URL_parse (base ++ "/reservations")) (fun u0 =>
      bindC (Object_entries params) (fun entries =>
      bindC (forEach_append entries u0) (fun u =>
      Return (u, {| opt_method := None; opt_headers := Some headers; opt_body := None;
                    opt_signal := signal |}))))
  | SearchByPhone mobile_number =>
      bindC (ToString mobile_number) (fun n =>
      Return (UrlString (base ++ "/reservations?mobile_number=" ++ n), bare))
  | CreateReservation reservation =>
      Return (UrlString (base ++ "/reservations"), writing "POST" reservation)
  | ReadReservation reservation_id =>
      bindC (ToString reservation_id) (fun id =>
      Return (UrlString (base ++ "/reservations/" ++ id), bare))
  | SeatReservation reservation_id table =>
      bindC (Get table "table_id") (fun table_id =>
      bindC (ToString table_id) (fun id =>
      Return (UrlString (base ++ "/tables/" ++ id ++ "/seat"),
              writing "PUT" (VObj [("reservation_id", reservation_id)]))))
  | UpdateReservation reservation =>
      bindC (Get reservation "reservation_id") (fun reservation_id =>
      bindC (ToString reservation_id) (fun id =>
      Return (UrlString (base ++ "/reservations/" ++ id), writing "PUT" reservation)))
  | UpdateReservationStatus reservation_id status =>
      bindC (ToString reservation_id) (fun id =>
      Return (UrlString (base ++ "/reservations/" ++ id ++ "/status"),
              writing "PUT" (VObj [("status", status)])))
  | ListTables => Return (UrlString (base ++ "/tables"), bare)
  | CreateTable table => Return (UrlString (base ++ "/tables"), writing "POST" table)
  | ReadTableByReservation reservation_id =>
      bindC (ToString reservation_id) (fun id =>
      Return (UrlString (base ++ "/tables/seated/" ++ id), bare))
  | FinishTable table =>
      bindC (Get table "table_id") (fun table_id =>
      bindC (ToString table_id) (fun id =>
      Return (UrlString (base ++ "/tables/" ++ id ++ "/seat"),
              {| opt_method := Some "DELETE"; opt_headers := Some headers;
                 opt_body := None; opt_signal := signal |})))
  end.

(** What the operation makes of the executor's promise. *)
Definition finish (c : call) (p : promise) : promise :=
  if formats c then formatted p else p.

End Api.

(** ** Modelled helper *)

(** Modelled from the spec: the formatter that [./format-reservation-date]
    exports by default, a module that is not among the sources. The spec has
    the date and time fields of retrieved reservations reformatted for
    display, and has a 204 response, whose result is [null], be no error for
    any operation. So the model rewrites the [reservation_date] and the
    [reservation_time] of a reservation, or of each reservation of a
    sequence, where they are strings, and hands every other value back as
    it is; [formatAsDate] and [formatAsTime] are the display formats. *)
Definition format_field (format : string -> string) (v : value) : value :=
  match v with
  | VStr s => VStr (format s)
  | _ => v
  end.

Definition formatReservation_model (formatAsDate formatAsTime : string -> string)
    (reservation : value) : value :=
  match reservation with
  | VObj fields =>
      VObj (map (fun kv =>
                   if String.eqb (fst kv) "reservation_date"
                   then (fst kv, format_field formatAsDate (snd kv))
                   else if String.eqb (fst kv) "reservation_time"
                        then (fst kv, format_field formatAsTime (snd kv))
                        else kv) fields)
  | _ => reservation
  end.

Definition formatReservations_model (formatAsDate formatAsTime : string -> string)
    (reservations : value) : completion value :=
  match reservations with
  | VArr elements =>
      Return (VArr (map (formatReservation_model formatAsDate formatAsTime) elements))
  | _ => Return (formatReservation_model formatAsDate formatAsTime reservations)
  end.

(** Display formats for the examples: the leading [YYYY-MM-DD] of a
    timestamp and the leading [HH:MM] of a time. *)
Definition leading_date (s : string) : string := String.substring 0 10 s.
Definition leading_time (s : string) : string := String.substring 0 5 s.

(** A URL parser for the examples. It knows the two origins the examples
    use, followed by a path of lower-case letters, digits and [/ _ -],
    addresses that [new URL] hands back as they are written; it refuses
    every other string, which is more than [new URL] refuses. *)
Definition example_path_char (n : nat) : bool :=
  (Nat.leb 97 n && Nat.leb n 122) || (Nat.leb 48 n && Nat.leb n 57)
  || Nat.eqb n 47 || Nat.eqb n 95 || Nat.eqb n 45.

Fixpoint example_path (s : string) : bool :=
  match s with
  | EmptyString => true
  | String c rest => example_path_char (nat_of_ascii c) && example_path rest
  end.

Fixpoint strip_prefix (p s : string) : option string :=
  match p, s with
  | EmptyString, _ => Some s
  | String a p', String b s' => if Ascii.eqb a b then strip_prefix p' s' else None
  | String _ _, EmptyString => None
  end.

Definition sample_parse (s : string) : completion parsed_url :=
  let known rest :=
    if example_path rest then Return (plain_url s) else Throw (TypeError "Invalid URL") in
  match strip_prefix "http://localhost:5001/" s with
  | Some rest => known rest
  | None =>
      match strip_prefix "https://api.example.org/" s with
      | Some rest => known rest
      | None => Throw (TypeError "Invalid URL")
      end
  end.

(** ** Predicates of the statements *)

(** Whether a payload is an object with an own property of that name. *)
Definition has_field (payload : value) (key : string) : bool :=
  match payload with
  | VObj fields =>
      match own fields key with
      | Some _ => true
      | None => false
      end
  | _ => false
  end.

(** The transport reports an abort for the request: [fetch] rejects with an
    error named [AbortError], or the body read does. *)
Definition reports_abort (net : network) (u : url) (o : options) : Prop :=
  exists e,
    GetExn e "name" = Return (VStr "AbortError")
    /\ (net u o = Throw e
        \/ exists r, net u o = Return r /\ status r <> 204 /\ json r = Throw e).

(** ** Sample servers for the closed examples *)

Definition answering (r : response) : network := fun _ _ => Return r.
Definition failing (e : exn) : network := fun _ _ => Throw e.
Definition sample_format : value -> completion value :=
  formatReservations_model leading_date leading_time.

(** A formatter that does not take [null] for a reservation. *)
Definition strict_format (v : value) : completion value :=
  match v with
  | VNull | VUndefined => Throw (TypeError "Cannot read properties of null")
  | _ => sample_format v
  end.
Definition abort_error : exn := Error "AbortError" "The user aborted a request.".

Definition not_found : response :=
  {| status := 404;
     json := Return (VObj [("error", VStr "Reservation 99 cannot be found.")]) |}.

Definition empty_error : response :=
  {| status := 400;
     json := Return (VObj [("error", VStr EmptyString); ("data", VNum 7)]) |}.

Definition no_content_with_error : response :=
  {| status := 204; json := Return (VObj [("error", VStr "boom"); ("data", VNum 1)]) |}.

Definition server_error_without_envelope : response :=
  {| status := 500; json := Return (VObj [("message", VStr "Internal Server Error")]) |}.

Definition null_body : response := {| status := 200; json := Return VNull |}.

Definition one_reservation : value :=
  VArr [VObj [("reservation_id", VNum 1);
              ("reservation_date", VStr "2023-01-01T00:00:00.000Z");
              ("reservation_time", VStr "18:00:00")]].

Definition reservations_found : response :=
  {| status := 200; json := Return (VObj [("data", one_reservation)]) |}.

Definition no_content_with_empty_error : response :=
  {| status := 204;
     json := Return (VObj [("error", VStr EmptyString); ("data", VNum 1)]) |}.

Definition reservations_with_null_error : response :=
  {| status := 200; json := Return (VObj [("error", VNull); ("data", one_reservation)]) |}.

Definition no_content : response :=
  {| status := 204; json := Throw (Error "SyntaxError" "Unexpected end of JSON input") |}.

Definition created : response :=
  {| status := 201;
     json := Return (VObj [("data", VObj [("reservation_id", VNum 12);
                                           ("first_name", VStr "Ada")])]) |}.

Definition reservation_with_id : value :=
  VObj [("id", VNum 7); ("reservation_id", VNum 7); ("first_name", VStr "Ada")].

Definition created_without_id : response :=
  {| status := 201; json := Return (VObj [("data", VObj [("first_name", VStr "Ada")])]) |}.

(** ** Further predicates and samples *)

(** A string the form encoder leaves as it is: letters, digits and
    [* - . _] only. *)
Fixpoint form_safe (s : string) : bool :=
  match s with
  | EmptyString => true
  | String c rest => form_keeps (nat_of_ascii c) && form_safe rest
  end.

Definition seat_nine_options : options :=
  {| opt_method := Some "PUT"; opt_headers := Some [("Content-Type", "application/json")];
     opt_body := JSON_stringify (VObj [("data", VObj [("reservation_id", VNum 9)])]);
     opt_signal := Some 4%nat |}.

Definition offline : exn := Error "TypeError" "Failed to fetch".

Definition bad_gateway_page : response :=
  {| status := 502; json := Throw (Error "SyntaxError" "Unexpected token < in JSON") |}.

(** ** The shared executor, case by case *)

Section Executor.

Variable net : network.
Variables (u : url) (o : options) (onCancel : value).

Lemma fetchJson_no_content (r : response) :
  net u o = Return r -> status r = 204 ->
  fetchJson net u o onCancel = ([Fetch u o], Fulfilled VNull).
Proof.
  intros Hnet Hstatus. unfold fetchJson, fetch. rewrite Hnet. cbn.
  rewrite Hstatus. reflexivity.
Qed.

Lemma fetchJson_error (r : response) (payload error : value) :
  net u o = Return r -> status r <> 204 -> json r = Return payload ->
  Get payload "error" = Return error -> truthy error = true ->
  fetchJson net u o onCancel
  = ([Fetch u o; ResponseJson], Rejected (Thrown (VObj [("message", error)]))).
Proof.
  intros Hnet Hstatus Hjson Herror Htruthy. unfold fetchJson, fetch, response_json.
  rewrite Hnet. cbn. apply Z.eqb_neq in Hstatus. rewrite Hstatus.
  rewrite Hjson. cbn. rewrite Herror. cbn. rewrite Htruthy. reflexivity.
Qed.

Lemma fetchJson_data (r : response) (payload error data : value) :
  net u o = Return r -> status r <> 204 -> json r = Return payload ->
  Get payload "error" = Return error -> truthy error = false ->
  Get payload "data" = Return data ->
  fetchJson net u o onCancel = ([Fetch u o; ResponseJson], Fulfilled data).
Proof.
  intros Hnet Hstatus Hjson Herror Hfalsy Hdata. unfold fetchJson, fetch, response_json.
  rewrite Hnet. cbn. apply Z.eqb_neq in Hstatus. rewrite Hstatus.
  rewrite Hjson. cbn. rewrite Herror. cbn. rewrite Hfalsy. rewrite Hdata. reflexivity.
Qed.

Lemma fetchJson_aborted_fetch (e : exn) :
  net u o = Throw e -> GetExn e "name" = Return (VStr "AbortError") ->
  fetchJson net u o onCancel = ([Fetch u o], Fulfilled onCancel).
Proof.
  intros Hnet Hname. unfold fetchJson, fetch. rewrite Hnet. cbn.
  rewrite Hname. reflexivity.
Qed.

Lemma fetchJson_aborted_body (r : response) (e : exn) :
  net u o = Return r -> status r <> 204 -> json r = Throw e ->
  GetExn e "name" = Return (VStr "AbortError") ->
  fetchJson net u o onCancel = ([Fetch u o; ResponseJson], Fulfilled onCancel).
Proof.
  intros Hnet Hstatus Hjson Hname. unfold fetchJson, fetch, response_json.
  rewrite Hnet. cbn. apply Z.eqb_neq in Hstatus. rewrite Hstatus.
  rewrite Hjson. cbn. rewrite Hname. reflexivity.
Qed.

Lemma fetchJson_null_payload (r : response) :
  net u o = Return r -> status r <> 204 -> json r = Return VNull ->
  exists message,
    fetchJson net u o onCancel
    = ([Fetch u o; ResponseJson; ConsoleError (TypeError message)],
       Rejected (TypeError message)).
Proof.
  intros Hnet Hstatus Hjson. eexists. unfold fetchJson, fetch, response_json.
  rewrite Hnet. cbn. apply Z.eqb_neq in Hstatus. rewrite Hstatus.
  rewrite Hjson. cbn. reflexivity.
Qed.

(** Any other failure of the transport is logged and raised again as it is. *)
Lemma fetchJson_transport_failure (e : exn) (name : value) :
  net u o = Throw e -> GetExn e "name" = Return name ->
  strict_neq_string name "AbortError" = true ->
  fetchJson net u o onCancel = ([Fetch u o; ConsoleError e], Rejected e).
Proof.
  intros Hnet Hname Hother. unfold fetchJson, fetch. rewrite Hnet. cbn.
  rewrite Hname. cbn. rewrite Hother. reflexivity.
Qed.

(** Whatever the network answers, the executor issues its one request first. *)
Lemma requests_fetchJson :
  requests (trace (fetchJson net u o onCancel)) = [(u, o)].
Proof.
  unfold fetchJson, fetch, response_json.
  destruct (net u o) as [r | e]; cbn.
  - destruct (status r =? 204); cbn; [reflexivity |].
    destruct (json r) as [payload | e]; cbn.
    + destruct (Get payload "error") as [error | e]; cbn.
      * destruct (truthy error); cbn; [reflexivity |].
        destruct (Get payload "data") as [data | e]; cbn; [reflexivity |].
        destruct (GetExn e "name") as [name | e']; cbn; [| reflexivity].
        destruct (strict_neq_string name "AbortError"); reflexivity.
      * destruct (GetExn e "name") as [name | e']; cbn; [| reflexivity].
        destruct (strict_neq_string name "AbortError"); reflexivity.
    + destruct (GetExn e "name") as [name | e']; cbn; [| reflexivity].
      destruct (strict_neq_string name "AbortError"); reflexivity.
  - destruct (GetExn e "name") as [name | e']; cbn; [| reflexivity].
    destruct (strict_neq_string name "AbortError"); reflexivity.
Qed.

End Executor.

(** ** Every operation is one call of the executor *)

Section Operations.

Variable env : option string.
Variable parse : string -> completion parsed_url.
Variable fmt : value -> completion value.
Variable net : network.

Lemma async_return_await (p : promise) : async (return_await p) = p.
Proof.
  destruct p as [t [v | e]]; cbn; [rewrite app_nil_r |]; reflexivity.
Qed.

Lemma trace_then (p : promise) (f : value -> completion value) :
  trace (then_ p f) = trace p.
Proof.
  destruct p as [t [v | e]]; cbn; [destruct (f v) |]; reflexivity.
Qed.

Lemma trace_finish (c : call) (p : promise) : trace (finish fmt c p) = trace p.
Proof.
  unfold finish, formatted. destruct (formats c); [| reflexivity].
  now rewrite !trace_then.
Qed.

Lemma async_bind_lift {A : Type} (c : completion A) (k : A -> M settled) :
  async (bind (lift c) k)
  = match c with
    | Return a => async (k a)
    | Throw e => ([], Rejected e)
    end.
Proof.
  destruct c as [a | e]; cbn; [| reflexivity].
  destruct (k a) as [t [s | e]]; reflexivity.
Qed.

Lemma run_request_of (c : call) (signal : option nat) :
  run env parse fmt net c signal
  = match request_of env parse c signal with
    | Return (u, o) => finish fmt c (fetchJson net u o (onCancel_of c))
    | Throw e => ([], Rejected e)
    end.
Proof.
  destruct c; cbn [run request_of onCancel_of];
    unfold listReservations, searchByPhone, createReservation, readReservation,
      seatReservation, updateReservation, updateReservationStatus, listTables,
      createTable, readTableByReservation, finishTable, finish;
    cbn [formats];
    repeat (rewrite async_bind_lift;
            match goal with
            | |- match ?c with _ => _ end = _ => destruct c; cbn [bindC]; [| reflexivity]
            end);
    cbv zeta; rewrite async_return_await; reflexivity.
Qed.

End Operations.

Section Settling.

Variable env : option string.
Variable parse : string -> completion parsed_url.
Variable fmt : value -> completion value.
Variable net : network.

(** A call whose trace shows the request [(u, o)] is the executor's answer
    to that request, formatted where the operation formats. *)
Lemma issued_run (c : call) (signal : option nat) (u : url) (o : options) :
  requests (trace (run env parse fmt net c signal)) = [(u, o)] ->
  run env parse fmt net c signal = finish fmt c (fetchJson net u o (onCancel_of c)).
Proof.
  rewrite run_request_of.
  destruct (request_of env parse c signal) as [[u' o'] | e]; [| discriminate].
  rewrite trace_finish, requests_fetchJson. intros H. now inversion H.
Qed.

Lemma issued_request_of (c : call) (signal : option nat) (u : url) (o : options) :
  requests (trace (run env parse fmt net c signal)) = [(u, o)] ->
  request_of env parse c signal = Return (u, o).
Proof.
  rewrite run_request_of.
  destruct (request_of env parse c signal) as [[u' o'] | e]; [| discriminate].
  rewrite trace_finish, requests_fetchJson. intros H. now inversion H.
Qed.

Lemma finish_plain (c : call) (p : promise) : formats c = false -> finish fmt c p = p.
Proof. unfold finish. now intros ->. Qed.

Lemma finish_rejected (c : call) (t : list event) (e : exn) :
  finish fmt c (t, Rejected e) = (t, Rejected e).
Proof. unfold finish. now destruct (formats c). Qed.

Lemma outcome_finish_formats (c : call) (t : list event) (s : settled) :
  formats c = true ->
  outcome (finish fmt c (t, s)) = outcome (formatted fmt ([], s)).
Proof.
  unfold finish. intros ->. unfold formatted, formatReservationDate, formatReservationTime.
  destruct s as [v | e]; cbn; [| reflexivity].
  destruct (fmt v) as [w | e]; cbn; [| reflexivity].
  now destruct (fmt w).
Qed.

(** The success path of every operation, for a payload whose [error] is
    absent or falsy. *)
Lemma run_data (c : call) (signal : option nat) (u : url) (o : options)
    (r : response) (payload error data : value) :
  requests (trace (run env parse fmt net c signal)) = [(u, o)] ->
  net u o = Return r -> status r <> 204 -> json r = Return payload ->
  Get payload "error" = Return error -> truthy error = false ->
  Get payload "data" = Return data ->
  run env parse fmt net c signal = finish fmt c ([Fetch u o; ResponseJson], Fulfilled data).
Proof.
  intros Hreq Hnet Hstatus Hjson Herror Hfalsy Hdata.
  rewrite (issued_run c signal u o Hreq).
  now rewrite (fetchJson_data net u o (onCancel_of c) r payload error data
                 Hnet Hstatus Hjson Herror Hfalsy Hdata).
Qed.

End Settling.

(** The values that [if (payload.error)] takes for false. *)
Lemma falsy_values (v : value) :
  truthy v = false
  <-> v = VUndefined \/ v = VNull \/ v = VBool false \/ v = VNum 0 \/ v = VStr EmptyString.
Proof.
  split.
  - destruct v as [| | [|] | n | s | |]; cbn; intros H; try discriminate; auto.
    + apply negb_false_iff, Z.eqb_eq in H. subst. auto.
    + apply negb_false_iff, String.eqb_eq in H. subst. auto 6.
  - intros [-> | [-> | [-> | [-> | ->]]]]; reflexivity.
Qed.

(** ** The runtime model on small inputs *)

Example ToString_of_values :
  ToString (VNum 5) = Return "5"
  /\ ToString (VNum (-12)) = Return "-12"
  /\ ToString VUndefined = Return "undefined"
  /\ ToString (VArr [VNum 1; VNull; VArr [VStr "a"; VStr "b"]; VObj []])
     = Return "1,,a,b,[object Object]".
Proof. repeat split. Qed.

Example JSON_stringify_of_envelope :
  JSON_stringify (VObj [("data", VObj [("people", VNum 4); ("note", VUndefined);
                                       ("tags", VArr [VStr "a"; VUndefined])])])
  = Some ("{" ++ dquote ++ "data" ++ dquote ++ ":{" ++ dquote ++ "people" ++ dquote ++ ":4,"
              ++ dquote ++ "tags" ++ dquote ++ ":[" ++ dquote ++ "a" ++ dquote ++ ",null]}}").
Proof. reflexivity. Qed.

Example url_href_of_search :
  url_href (searchParams_append
              (searchParams_append
                 (UrlObject (plain_url "http://localhost:5001/reservations") [])
                 "date" "2023-01-01")
              "mobile_number" "555 12&34")
  = "http://localhost:5001/reservations?date=2023-01-01&mobile_number=555+12%2634".
Proof. reflexivity. Qed.

Example API_BASE_URL_default :
  API_BASE_URL None = "http://localhost:5001"
  /\ API_BASE_URL (Some EmptyString) = "http://localhost:5001"
  /\ API_BASE_URL (Some "https://api.example.org") = "https://api.example.org".
Proof. repeat split. Qed.

(** ** The error envelope *)

(** C1, as amended. For every operation that got its request out: when the
    response has a status other than 204 and its body parses to a payload
    whose [error] property is truthy, the call rejects with
    [{ message: payload.error }], whatever the status is. *)
Theorem truthy_error_rejects
    (env : option string) (parse : string -> completion parsed_url)
    (fmt : value -> completion value) (net : network)
    (c : call) (signal : option nat) (u : url) (o : options)
    (r : response) (payload error : value) :
  requests (trace (run env parse fmt net c signal)) = [(u, o)] ->
  net u o = Return r -> status r <> 204 -> json r = Return payload ->
  Get payload "error" = Return error -> truthy error = true ->
  outcome (run env parse fmt net c signal) = Rejected (Thrown (VObj [("message", error)])).
Proof.
  intros Hreq Hnet Hstatus Hjson Herror Htruthy.
  rewrite (issued_run env parse fmt net c signal u o Hreq).
  rewrite (fetchJson_error net u o (onCancel_of c) r payload error
             Hnet Hstatus Hjson Herror Htruthy).
  now rewrite finish_rejected.
Qed.

Lemma truthy_error_rejects_witness :
  outcome (run None sample_parse sample_format (answering not_found) (ReadReservation (VNum 99)) None)
  = Rejected (Thrown (VObj [("message", VStr "Reservation 99 cannot be found.")])).
Proof.
  eapply (truthy_error_rejects None sample_parse sample_format (answering not_found)
            (ReadReservation (VNum 99)) None
            (UrlString "http://localhost:5001/reservations/99")
            {| opt_method := None; opt_headers := None; opt_body := None; opt_signal := None |}
            not_found);
    [reflexivity | reflexivity | discriminate | reflexivity | reflexivity | reflexivity].
Defined.

(** C1 as stated fails twice: an [error] field that is present but falsy
    does not reject (the call resolves with [payload.data]), and at status
    204 the body is never read, so the call resolves with [null]. *)
Lemma error_field_need_not_reject :
  json empty_error = Return (VObj [("error", VStr EmptyString); ("data", VNum 7)])
  /\ outcome (run None sample_parse sample_format (answering empty_error) (ReadReservation (VNum 1)) None)
     = Fulfilled (VNum 7)
  /\ json no_content_with_error = Return (VObj [("error", VStr "boom"); ("data", VNum 1)])
  /\ outcome (run None sample_parse sample_format (answering no_content_with_error)
                (CreateReservation (VObj [])) None)
     = Fulfilled VNull.
Proof. repeat split. Qed.

(** ** The success path *)

(** C2, as amended. For every operation that got its request out: when the
    response has a status other than 204, an error status included, and its
    body parses to a JSON value other than [null] that has no [error] field,
    the executor takes the success path with [payload.data], which is
    [undefined] when the payload has no such field. Every operation other
    than [listReservations] resolves with exactly that value;
    [listReservations] settles as its two formatter steps settle on it. *)
Theorem no_error_field_resolves_with_data
    (env : option string) (parse : string -> completion parsed_url)
    (fmt : value -> completion value) (net : network)
    (c : call) (signal : option nat) (u : url) (o : options)
    (r : response) (payload : value) :
  requests (trace (run env parse fmt net c signal)) = [(u, o)] ->
  net u o = Return r -> status r <> 204 -> json r = Return payload ->
  payload <> VNull -> payload <> VUndefined ->
  has_field payload "error" = false ->
  exists data,
    Get payload "data" = Return data
    /\ (has_field payload "data" = false -> data = VUndefined)
    /\ (formats c = false -> outcome (run env parse fmt net c signal) = Fulfilled data)
    /\ (formats c = true ->
        outcome (run env parse fmt net c signal) = outcome (formatted fmt ([], Fulfilled data))).
Proof.
  intros Hreq Hnet Hstatus Hjson Hnull Hundef Hfield.
  assert (Herror : Get payload "error" = Return VUndefined).
  { destruct payload; try reflexivity; try contradiction.
    cbn in *. now destruct (own fields "error"). }
  assert (Hdata : exists data, Get payload "data" = Return data
                               /\ (has_field payload "data" = false -> data = VUndefined)).
  { destruct payload as [| | b | n | s | elements | fields]; try contradiction; cbn; eauto.
    destruct (own fields "data") as [x |]; [| eauto].
    exists x. split; [reflexivity | discriminate]. }
  destruct Hdata as (data & Hdata & Habsent).
  exists data. split; [exact Hdata |]. split; [exact Habsent |].
  rewrite (run_data env parse fmt net c signal u o r payload VUndefined data
             Hreq Hnet Hstatus Hjson Herror eq_refl Hdata).
  split; intros Hc.
  - now rewrite finish_plain.
  - now apply outcome_finish_formats.
Qed.

Lemma no_error_field_resolves_with_data_witness :
  exists data,
    Get (VObj [("message", VStr "Internal Server Error")]) "data" = Return data
    /\ (has_field (VObj [("message", VStr "Internal Server Error")]) "data" = false ->
        data = VUndefined)
    /\ (formats ListTables = false ->
        outcome (run None sample_parse sample_format (answering server_error_without_envelope)
                   ListTables None) = Fulfilled data)
    /\ (formats ListTables = true ->
        outcome (run None sample_parse sample_format (answering server_error_without_envelope)
                   ListTables None) = outcome (formatted sample_format ([], Fulfilled data))).
Proof.
  eapply (no_error_field_resolves_with_data None sample_parse sample_format
            (answering server_error_without_envelope) ListTables None
            (UrlString "http://localhost:5001/tables")
            {| opt_method := None; opt_headers := None; opt_body := None; opt_signal := None |}
            server_error_without_envelope);
    [reflexivity | reflexivity | discriminate | reflexivity
    | discriminate | discriminate | reflexivity].
Defined.

(** C2 as stated fails twice: the JSON body [null] has no [error] field, yet
    reading [payload.error] throws and every operation rejects with that
    [TypeError]; and [listReservations] resolves with what its formatters
    return, which is not the payload's [data] field once the date and the
    time have been reformatted. *)
Lemma no_error_field_need_not_resolve_with_data :
  has_field VNull "error" = false
  /\ outcome (run None sample_parse sample_format (answering null_body) (ReadReservation (VNum 1)) None)
     = Rejected (TypeError "Cannot read properties of null (reading error)")
  /\ outcome (run None sample_parse sample_format (answering reservations_found)
                (ListReservations (VObj [("date", VStr "2023-01-01")])) None)
     = Fulfilled (VArr [VObj [("reservation_id", VNum 1);
                              ("reservation_date", VStr "2023-01-01");
                              ("reservation_time", VStr "18:00")]])
  /\ outcome (run None sample_parse sample_format (answering reservations_found)
                (ListReservations (VObj [("date", VStr "2023-01-01")])) None)
     <> Fulfilled one_reservation.
Proof. repeat split. discriminate. Qed.

(** C10, as amended. The error check is a truthiness test. For every
    operation that got its request out: when the response has a status other
    than 204 and its body parses to an object whose [error] field is the
    empty string, 0, [false] or [null], the call does not reject; the
    executor resolves with [payload.data]. Every operation other than
    [listReservations] resolves with exactly that value; [listReservations]
    settles as its two formatter steps settle on it. *)
Theorem falsy_error_is_success
    (env : option string) (parse : string -> completion parsed_url)
    (fmt : value -> completion value) (net : network)
    (c : call) (signal : option nat) (u : url) (o : options)
    (r : response) (fields : list (string * value)) (error : value) :
  requests (trace (run env parse fmt net c signal)) = [(u, o)] ->
  net u o = Return r -> status r <> 204 -> json r = Return (VObj fields) ->
  own fields "error" = Some error ->
  error = VStr EmptyString \/ error = VNum 0 \/ error = VBool false \/ error = VNull ->
  exists data,
    Get (VObj fields) "data" = Return data
    /\ (formats c = false -> outcome (run env parse fmt net c signal) = Fulfilled data)
    /\ (formats c = true ->
        outcome (run env parse fmt net c signal) = outcome (formatted fmt ([], Fulfilled data))).
Proof.
  intros Hreq Hnet Hstatus Hjson Hown Hfalsy.
  assert (Herror : Get (VObj fields) "error" = Return error) by (cbn; now rewrite Hown).
  assert (Htest : truthy error = false) by (apply falsy_values; tauto).
  assert (Hdata : exists data, Get (VObj fields) "data" = Return data)
    by (cbn; destruct (own fields "data"); eauto).
  destruct Hdata as (data & Hdata). exists data. split; [exact Hdata |].
  rewrite (run_data env parse fmt net c signal u o r (VObj fields) error data
             Hreq Hnet Hstatus Hjson Herror Htest Hdata).
  split; intros Hc.
  - now rewrite finish_plain.
  - now apply outcome_finish_formats.
Qed.

Lemma falsy_error_is_success_witness :
  exists data,
    Get (VObj [("error", VStr EmptyString); ("data", VNum 7)]) "data" = Return data
    /\ (formats (UpdateReservationStatus (VNum 3) (VStr "seated")) = false ->
        outcome (run None sample_parse sample_format (answering empty_error)
                   (UpdateReservationStatus (VNum 3) (VStr "seated")) None)
        = Fulfilled data)
    /\ (formats (UpdateReservationStatus (VNum 3) (VStr "seated")) = true ->
        outcome (run None sample_parse sample_format (answering empty_error)
                   (UpdateReservationStatus (VNum 3) (VStr "seated")) None)
        = outcome (formatted sample_format ([], Fulfilled data))).
Proof.
  eapply (falsy_error_is_success None sample_parse sample_format (answering empty_error)
            (UpdateReservationStatus (VNum 3) (VStr "seated")) None
            (UrlString "http://localhost:5001/reservations/3/status")
            {| opt_method := Some "PUT"; opt_headers := Some headers;
               opt_body := JSON_stringify (VObj [("data", VObj [("status", VStr "seated")])]);
               opt_signal := None |}
            empty_error _ (VStr EmptyString));
    [reflexivity | reflexivity | discriminate | reflexivity | reflexivity
    | left; reflexivity].
Defined.

(** C10 as stated fails twice: at status 204 a body with a falsy [error] is
    never read and the call resolves with [null], not with [payload.data];
    and [listReservations] resolves with what its formatters return, which
    is not the payload's [data] field once the date has been reformatted. *)
Lemma falsy_error_need_not_resolve_with_data :
  outcome (run None sample_parse sample_format (answering no_content_with_empty_error)
             (ReadReservation (VNum 1)) None)
  = Fulfilled VNull
  /\ Get (VObj [("error", VStr EmptyString); ("data", VNum 1)]) "data" = Return (VNum 1)
  /\ outcome (run None sample_parse sample_format (answering reservations_with_null_error)
                (ListReservations (VObj [])) None)
     <> Fulfilled one_reservation.
Proof. repeat split. discriminate. Qed.

(** ** Cancellation *)

(** C3, as amended. For every operation that got its request out, an abort
    reported by the transport is not an error: the call logs nothing and
    resolves with the fallback it gave to the executor. That fallback is the
    empty object for the six writing operations ([createReservation],
    [seatReservation], [updateReservation], [updateReservationStatus],
    [createTable], [finishTable]) and [undefined] for [searchByPhone],
    [readReservation], [listTables] and [readTableByReservation].
    [listReservations] gives the empty array and settles as its formatter
    steps settle on it: with the empty array when the formatter returns an
    empty array unchanged. *)
Theorem abort_resolves_with_fallback
    (env : option string) (parse : string -> completion parsed_url)
    (fmt : value -> completion value) (net : network)
    (c : call) (signal : option nat) (u : url) (o : options) :
  requests (trace (run env parse fmt net c signal)) = [(u, o)] ->
  reports_abort net u o ->
  (forall error, ~ In (ConsoleError error) (trace (run env parse fmt net c signal)))
  /\ (formats c = false -> outcome (run env parse fmt net c signal) = Fulfilled (onCancel_of c))
  /\ (formats c = true ->
      outcome (run env parse fmt net c signal) = outcome (formatted fmt ([], Fulfilled (VArr []))))
  /\ (formats c = true -> fmt (VArr []) = Return (VArr []) ->
      outcome (run env parse fmt net c signal) = Fulfilled (VArr [])).
Proof.
  intros Hreq (e & Hname & Habort).
  rewrite (issued_run env parse fmt net c signal u o Hreq).
  assert (Hexec : exists t,
             fetchJson net u o (onCancel_of c) = (t, Fulfilled (onCancel_of c))
             /\ forall error, ~ In (ConsoleError error) t).
  { destruct Habort as [Hnet | (r & Hnet & Hstatus & Hjson)].
    - rewrite (fetchJson_aborted_fetch net u o (onCancel_of c) e Hnet Hname).
      eexists. split; [reflexivity |]. intros error [H | []]. discriminate.
    - rewrite (fetchJson_aborted_body net u o (onCancel_of c) r e Hnet Hstatus Hjson Hname).
      eexists. split; [reflexivity |]. intros error [H | [H | []]]; discriminate. }
  destruct Hexec as (t & -> & Hquiet).
  split; [| split; [| split]].
  - intros error. rewrite trace_finish. apply Hquiet.
  - intros Hc. now rewrite finish_plain.
  - intros Hc. rewrite (outcome_finish_formats fmt c t _ Hc).
    destruct c; try discriminate. reflexivity.
  - intros Hc Hempty. rewrite (outcome_finish_formats fmt c t _ Hc).
    destruct c; try discriminate.
    unfold formatted, formatReservationDate, formatReservationTime, then_, onCancel_of.
    now rewrite !Hempty.
Qed.

Lemma abort_resolves_with_fallback_witness :
  (forall error,
      ~ In (ConsoleError error)
          (trace (run None sample_parse sample_format (failing abort_error)
                    (ListReservations (VObj [("date", VStr "2023-01-01")])) None)))
  /\ (formats (ListReservations (VObj [("date", VStr "2023-01-01")])) = false ->
      outcome (run None sample_parse sample_format (failing abort_error)
                 (ListReservations (VObj [("date", VStr "2023-01-01")])) None)
      = Fulfilled (onCancel_of (ListReservations (VObj [("date", VStr "2023-01-01")]))))
  /\ (formats (ListReservations (VObj [("date", VStr "2023-01-01")])) = true ->
      outcome (run None sample_parse sample_format (failing abort_error)
                 (ListReservations (VObj [("date", VStr "2023-01-01")])) None)
      = outcome (formatted sample_format ([], Fulfilled (VArr []))))
  /\ (formats (ListReservations (VObj [("date", VStr "2023-01-01")])) = true ->
      sample_format (VArr []) = Return (VArr []) ->
      outcome (run None sample_parse sample_format (failing abort_error)
                 (ListReservations (VObj [("date", VStr "2023-01-01")])) None)
      = Fulfilled (VArr [])).
Proof.
  eapply (abort_resolves_with_fallback None sample_parse sample_format (failing abort_error)
            (ListReservations (VObj [("date", VStr "2023-01-01")])) None
            (UrlObject (plain_url "http://localhost:5001/reservations") [("date", "2023-01-01")])
            {| opt_method := None; opt_headers := Some headers; opt_body := None;
               opt_signal := None |}).
  - reflexivity.
  - exists abort_error. split; [reflexivity | left; reflexivity].
Defined.

(** C3 as stated fails for the reading operations: they give the executor no
    fallback, so a cancelled [readReservation], [readTableByReservation],
    [searchByPhone] or [listTables] resolves with [undefined], not with an
    empty object. *)
Lemma cancelled_read_resolves_undefined :
  outcome (run None sample_parse sample_format (failing abort_error) (ReadReservation (VNum 1)) (Some 0%nat))
  = Fulfilled VUndefined
  /\ outcome (run None sample_parse sample_format (failing abort_error)
                (ReadTableByReservation (VNum 1)) (Some 0%nat))
     = Fulfilled VUndefined
  /\ outcome (run None sample_parse sample_format (failing abort_error)
                (SearchByPhone (VStr "555")) (Some 0%nat))
     = Fulfilled VUndefined
  /\ outcome (run None sample_parse sample_format (failing abort_error) ListTables (Some 0%nat))
     = Fulfilled VUndefined
  /\ Fulfilled VUndefined <> Fulfilled (VObj []).
Proof. repeat split. discriminate. Qed.

(** ** No content *)

(** C4. For every operation that got its request out, a response with
    status 204 ends the call at once with an empty result and no error: the
    request is the only event of the call, so the body is not read and
    nothing is logged, and the call resolves with [null]. For
    [listReservations], whose result goes through the formatter of
    [./format-reservation-date], this is so when that formatter hands
    [null] back, as the spec requires of it by having a 204 be no error for
    any operation. *)
Theorem no_content_resolves_null
    (env : option string) (parse : string -> completion parsed_url)
    (fmt : value -> completion value) (net : network)
    (c : call) (signal : option nat) (u : url) (o : options) (r : response) :
  requests (trace (run env parse fmt net c signal)) = [(u, o)] ->
  net u o = Return r -> status r = 204 ->
  (formats c = true -> fmt VNull = Return VNull) ->
  run env parse fmt net c signal = ([Fetch u o], Fulfilled VNull).
Proof.
  intros Hreq Hnet Hstatus Hnull.
  rewrite (issued_run env parse fmt net c signal u o Hreq).
  rewrite (fetchJson_no_content net u o (onCancel_of c) r Hnet Hstatus).
  unfold finish. destruct (formats c); [| reflexivity].
  unfold formatted, formatReservationDate, formatReservationTime, then_.
  now rewrite !(Hnull eq_refl).
Qed.

Lemma no_content_resolves_null_witness :
  run None sample_parse sample_format (answering no_content)
    (ListReservations (VObj [("date", VStr "2023-01-01")])) None
  = ([Fetch (UrlObject (plain_url "http://localhost:5001/reservations")
               [("date", "2023-01-01")])
        {| opt_method := None; opt_headers := Some headers; opt_body := None;
           opt_signal := None |}],
     Fulfilled VNull).
Proof.
  apply (no_content_resolves_null None sample_parse sample_format (answering no_content)
           (ListReservations (VObj [("date", VStr "2023-01-01")])) None _ _ no_content);
    reflexivity.
Defined.

(** ** The requests *)

(** C5. [createReservation], for every reservation record and so for one
    that carries no id, issues exactly one request: a POST to
    [<base>/reservations] whose body is [JSON.stringify({ data: reservation })].
    When the response is JSON (status other than 204, no truthy [error]) the
    call resolves with the payload's [data] field. *)
Theorem createReservation_posts_record
    (env : option string) (net : network) (reservation : value) (signal : option nat) :
  let u := UrlString (API_BASE_URL env ++ "/reservations") in
  let o := {| opt_method := Some "POST"; opt_headers := Some headers;
              opt_body := JSON_stringify (VObj [("data", reservation)]);
              opt_signal := signal |} in
  requests (trace (createReservation env net reservation signal)) = [(u, o)]
  /\ http_method o = "POST"
  /\ forall (r : response) (payload error data : value),
      net u o = Return r -> status r <> 204 -> json r = Return payload ->
      Get payload "error" = Return error -> truthy error = false ->
      Get payload "data" = Return data ->
      outcome (createReservation env net reservation signal) = Fulfilled data.
Proof.
  intros u o.
  assert (Hrun : createReservation env net reservation signal
                 = fetchJson net u o (VObj [])).
  { unfold createReservation. cbv zeta. apply async_return_await. }
  rewrite Hrun. split; [apply requests_fetchJson | split; [reflexivity |]].
  intros r payload error data Hnet Hstatus Hjson Herror Hfalsy Hdata.
  now rewrite (fetchJson_data net u o (VObj []) r payload error data
                 Hnet Hstatus Hjson Herror Hfalsy Hdata).
Qed.

Lemma createReservation_posts_record_witness :
  requests (trace (createReservation None (answering created)
                     (VObj [("first_name", VStr "Ada")]) None))
  = [(UrlString "http://localhost:5001/reservations",
      {| opt_method := Some "POST"; opt_headers := Some headers;
         opt_body := JSON_stringify (VObj [("data", VObj [("first_name", VStr "Ada")])]);
         opt_signal := None |})]
  /\ outcome (createReservation None (answering created)
                (VObj [("first_name", VStr "Ada")]) None)
     = Fulfilled (VObj [("reservation_id", VNum 12); ("first_name", VStr "Ada")]).
Proof.
  destruct (createReservation_posts_record None (answering created)
              (VObj [("first_name", VStr "Ada")]) None) as (Hrequest & _ & Hdata).
  split; [exact Hrequest |].
  apply (Hdata created (VObj [("data", VObj [("reservation_id", VNum 12);
                                             ("first_name", VStr "Ada")])])
           VUndefined);
    [reflexivity | discriminate | reflexivity | reflexivity | reflexivity | reflexivity].
Defined.

(** C7. [finishTable], given a table whose [table_id] is 5, issues one
    request, a DELETE to [<base>/tables/5/seat] with no body; and for every
    table argument that has properties, one DELETE with no body to
    [<base>/tables/<table_id>/seat], [<table_id>] being the property as a
    template literal writes it. *)
Theorem finishTable_deletes_seat
    (env : option string) (net : network) (signal : option nat) :
  requests (trace (finishTable env net (VObj [("table_id", VNum 5)]) signal))
  = [(UrlString (API_BASE_URL env ++ "/tables/5/seat"),
      {| opt_method := Some "DELETE"; opt_headers := Some headers; opt_body := None;
         opt_signal := signal |})]
  /\ forall (table table_id : value) (id : string),
      Get table "table_id" = Return table_id -> ToString table_id = Return id ->
      requests (trace (finishTable env net table signal))
      = [(UrlString (API_BASE_URL env ++ "/tables/" ++ id ++ "/seat"),
          {| opt_method := Some "DELETE"; opt_headers := Some headers; opt_body := None;
             opt_signal := signal |})].
Proof.
  assert (Hgeneral : forall (table table_id : value) (id : string),
             Get table "table_id" = Return table_id -> ToString table_id = Return id ->
             requests (trace (finishTable env net table signal))
             = [(UrlString (API_BASE_URL env ++ "/tables/" ++ id ++ "/seat"),
                 {| opt_method := Some "DELETE"; opt_headers := Some headers;
                    opt_body := None; opt_signal := signal |})]).
  { intros table table_id id Hget Hstring. unfold finishTable.
    rewrite async_bind_lift, Hget, async_bind_lift, Hstring. cbv zeta.
    rewrite async_return_await. apply requests_fetchJson. }
  split; [| exact Hgeneral].
  apply (Hgeneral (VObj [("table_id", VNum 5)]) (VNum 5) "5"); reflexivity.
Qed.

Lemma finishTable_deletes_seat_witness :
  requests (trace (finishTable (Some "https://api.example.org") (answering no_content)
                     (VObj [("table_name", VStr "Bar #1"); ("table_id", VNum 12)]) None))
  = [(UrlString "https://api.example.org/tables/12/seat",
      {| opt_method := Some "DELETE"; opt_headers := Some headers; opt_body := None;
         opt_signal := None |})].
Proof.
  apply (proj2 (finishTable_deletes_seat (Some "https://api.example.org")
                  (answering no_content) None)
           (VObj [("table_name", VStr "Bar #1"); ("table_id", VNum 12)]) (VNum 12) "12");
    reflexivity.
Defined.

(** ** Records submitted for creation *)

(** C8, as amended. The client checks no identifier. [createReservation]
    and [createTable] send whatever record they are given, one that already
    carries an identifier included: one POST whose body is
    [JSON.stringify({ data: record })]. From a JSON response with no truthy
    [error] they resolve with the payload's [data] field as it is, whether
    or not it carries an identifier. *)
Theorem creation_passes_record_through
    (env : option string) (parse : string -> completion parsed_url)
    (fmt : value -> completion value) (net : network)
    (c : call) (record : value) (signal : option nat) :
  c = CreateReservation record \/ c = CreateTable record ->
  exists (u : url) (o : options),
    trace (run env parse fmt net c signal) <> []
    /\ requests (trace (run env parse fmt net c signal)) = [(u, o)]
    /\ opt_method o = Some "POST"
    /\ opt_body o = JSON_stringify (VObj [("data", record)])
    /\ forall (r : response) (payload error data : value),
        net u o = Return r -> status r <> 204 -> json r = Return payload ->
        Get payload "error" = Return error -> truthy error = false ->
        Get payload "data" = Return data ->
        outcome (run env parse fmt net c signal) = Fulfilled data.
Proof.
  intros Hc.
  assert (Hrequest : exists u o,
             request_of env parse c signal = Return (u, o)
             /\ opt_method o = Some "POST"
             /\ opt_body o = JSON_stringify (VObj [("data", record)])).
  { destruct Hc as [-> | ->]; cbn; eauto. }
  destruct Hrequest as (u & o & Hrequest & Hmethod & Hbody).
  assert (Hrun : run env parse fmt net c signal = fetchJson net u o (onCancel_of c)).
  { rewrite run_request_of, Hrequest. apply finish_plain.
    destruct Hc as [-> | ->]; reflexivity. }
  assert (Hreqs : requests (trace (run env parse fmt net c signal)) = [(u, o)])
    by (rewrite Hrun; apply requests_fetchJson).
  exists u, o. split; [| split; [exact Hreqs | split; [exact Hmethod | split; [exact Hbody |]]]].
  - intros Hnil. rewrite Hnil in Hreqs. discriminate.
  - intros r payload error data Hnet Hstatus Hjson Herror Hfalsy Hdata. rewrite Hrun.
    now rewrite (fetchJson_data net u o (onCancel_of c) r payload error data
                   Hnet Hstatus Hjson Herror Hfalsy Hdata).
Qed.

Lemma creation_passes_record_through_witness :
  exists (u : url) (o : options),
    trace (run None sample_parse sample_format (answering created_without_id)
             (CreateTable (VObj [("table_id", VNum 3); ("capacity", VNum 4)])) None) <> []
    /\ requests (trace (run None sample_parse sample_format (answering created_without_id)
                          (CreateTable (VObj [("table_id", VNum 3); ("capacity", VNum 4)]))
                          None))
       = [(u, o)]
    /\ opt_method o = Some "POST"
    /\ opt_body o
       = JSON_stringify (VObj [("data", VObj [("table_id", VNum 3); ("capacity", VNum 4)])])
    /\ forall (r : response) (payload error data : value),
        answering created_without_id u o = Return r -> status r <> 204 ->
        json r = Return payload ->
        Get payload "error" = Return error -> truthy error = false ->
        Get payload "data" = Return data ->
        outcome (run None sample_parse sample_format (answering created_without_id)
                   (CreateTable (VObj [("table_id", VNum 3); ("capacity", VNum 4)])) None)
        = Fulfilled data.
Proof.
  apply (creation_passes_record_through None sample_parse sample_format (answering created_without_id)
           (CreateTable (VObj [("table_id", VNum 3); ("capacity", VNum 4)]))
           (VObj [("table_id", VNum 3); ("capacity", VNum 4)]) None).
  right. reflexivity.
Defined.

(** C8 as stated fails on both counts: a reservation that already carries
    [id] and [reservation_id] is posted like any other, identifiers included,
    and when the response's [data] carries no identifier the call resolves
    with that record all the same. *)
Lemma creation_with_identifier_goes_through :
  has_field reservation_with_id "id" = true
  /\ has_field reservation_with_id "reservation_id" = true
  /\ requests (trace (createReservation None (answering created_without_id)
                        reservation_with_id None))
     = [(UrlString "http://localhost:5001/reservations",
         {| opt_method := Some "POST"; opt_headers := Some headers;
            opt_body := JSON_stringify (VObj [("data", reservation_with_id)]);
            opt_signal := None |})]
  /\ outcome (createReservation None (answering created_without_id) reservation_with_id None)
     = Fulfilled (VObj [("first_name", VStr "Ada")])
  /\ has_field (VObj [("first_name", VStr "Ada")]) "id" = false
  /\ has_field (VObj [("first_name", VStr "Ada")]) "reservation_id" = false.
Proof. repeat split. Qed.

(** ** Headers *)

(** C9, as amended. The shared [headers] object holds the one header
    [Content-Type: application/json]. The seven operations whose [options]
    name it ([listReservations], [createReservation], [seatReservation],
    [updateReservation], [updateReservationStatus], [createTable],
    [finishTable]) attach it to their request; [searchByPhone],
    [readReservation], [listTables] and [readTableByReservation] pass
    [{ signal }] alone and attach no header. *)
Theorem headers_where_named
    (env : option string) (parse : string -> completion parsed_url)
    (fmt : value -> completion value) (net : network)
    (c : call) (signal : option nat) (u : url) (o : options) :
  requests (trace (run env parse fmt net c signal)) = [(u, o)] ->
  opt_headers o
  = if names_headers c then Some [("Content-Type", "application/json")] else None.
Proof.
  intros Hreq. apply issued_request_of in Hreq.
  destruct c; cbn in Hreq;
    repeat match type of Hreq with
           | bindC ?x _ = _ => destruct x; cbn in Hreq; [| discriminate]
           end;
    inversion Hreq; reflexivity.
Qed.

Lemma headers_where_named_witness :
  opt_headers {| opt_method := Some "PUT"; opt_headers := Some headers;
                 opt_body := JSON_stringify
                               (VObj [("data", VObj [("reservation_id", VNum 9)])]);
                 opt_signal := Some 2%nat |}
  = if names_headers (SeatReservation (VNum 9) (VObj [("table_id", VNum 5)]))
    then Some [("Content-Type", "application/json")] else None.
Proof.
  apply (headers_where_named None sample_parse sample_format (answering no_content)
           (SeatReservation (VNum 9) (VObj [("table_id", VNum 5)])) (Some 2%nat)
           (UrlString "http://localhost:5001/tables/5/seat")).
  reflexivity.
Defined.

(** C9 as stated fails for the four reading operations: the request of
    [searchByPhone], like those of [readReservation], [listTables] and
    [readTableByReservation], carries no headers. *)
Lemma reads_attach_no_header :
  requests (trace (searchByPhone None (answering no_content) (VStr "555") None))
  = [(UrlString "http://localhost:5001/reservations?mobile_number=555",
      {| opt_method := None; opt_headers := None; opt_body := None; opt_signal := None |})]
  /\ map (fun request => opt_headers (snd request))
       (requests (trace (readReservation None (answering no_content) (VNum 1) None)))
     = [None]
  /\ map (fun request => opt_headers (snd request))
       (requests (trace (listTables None (answering no_content) None)))
     = [None]
  /\ map (fun request => opt_headers (snd request))
       (requests (trace (readTableByReservation None (answering no_content) (VNum 1) None)))
     = [None].
Proof. repeat split. Qed.

(** ** Formatting the list *)

(** Both names imported from [./format-reservation-date] are the one
    function. *)
Lemma formatReservationTime_is_formatReservationDate (f : value -> completion value) :
  formatReservationTime f = formatReservationDate f.
Proof. reflexivity. Qed.

(** [listReservations], once [new URL] and the loop over the entries have
    gone through: the executor's answer to the one request, formatted. *)
Lemma listReservations_run
    (env : option string) (parse : string -> completion parsed_url)
    (fmt : value -> completion value) (net : network)
    (params : value) (signal : option nat)
    (parsed : parsed_url) (entries : list (string * value)) (u : url) :
  parse (API_BASE_URL env ++ "/reservations") = Return parsed ->
  Object_entries params = Return entries ->
  forEach_append entries (UrlObject parsed []) = Return u ->
  listReservations env parse fmt net params signal
  = formatted fmt
      (fetchJson net u
         {| opt_method := None; opt_headers := Some headers; opt_body := None;
            opt_signal := signal |}
         (VArr [])).
Proof.
  intros Hparse Hentries Happend. unfold listReservations, URL_new.
  rewrite async_bind_lift, Hparse. cbn [bindC].
  rewrite async_bind_lift, Hentries, async_bind_lift, Happend.
  apply async_return_await.
Qed.

(** The request of [listReservations]: the entries of [params] become the
    search parameters, each value through its [toString]. *)
Lemma listReservations_request
    (env : option string) (parse : string -> completion parsed_url)
    (fmt : value -> completion value) (net : network)
    (params : value) (signal : option nat)
    (parsed : parsed_url) (entries : list (string * value)) (u : url) :
  parse (API_BASE_URL env ++ "/reservations") = Return parsed ->
  Object_entries params = Return entries ->
  forEach_append entries (UrlObject parsed []) = Return u ->
  requests (trace (listReservations env parse fmt net params signal))
  = [(u, {| opt_method := None; opt_headers := Some headers; opt_body := None;
            opt_signal := signal |})].
Proof.
  intros Hparse Hentries Happend.
  rewrite (listReservations_run env parse fmt net params signal parsed entries u
             Hparse Hentries Happend).
  unfold formatted. rewrite !trace_then. apply requests_fetchJson.
Qed.

(** Formatting what is already formatted changes nothing, for display
    formats that leave their own output as it is. *)
Lemma formatReservation_model_twice (formatAsDate formatAsTime : string -> string) :
  (forall s, formatAsDate (formatAsDate s) = formatAsDate s) ->
  (forall s, formatAsTime (formatAsTime s) = formatAsTime s) ->
  forall reservation,
    formatReservation_model formatAsDate formatAsTime
      (formatReservation_model formatAsDate formatAsTime reservation)
    = formatReservation_model formatAsDate formatAsTime reservation.
Proof.
  intros Hdate Htime reservation.
  destruct reservation as [| | b | n | s | elements | fields]; try reflexivity.
  cbn. f_equal. rewrite map_map. apply map_ext. intros [key v]. cbn.
  destruct (String.eqb key "reservation_date") eqn:Hkey; cbn.
  - rewrite Hkey. destruct v; cbn; try reflexivity. now rewrite Hdate.
  - destruct (String.eqb key "reservation_time") eqn:Hkey'; cbn; rewrite Hkey.
    + rewrite Hkey'. destruct v; cbn; try reflexivity. now rewrite Htime.
    + now rewrite Hkey'.
Qed.

(** What the modelled formatter does to the two fields of a reservation. *)
Lemma formatReservation_model_fields
    (formatAsDate formatAsTime : string -> string) (fields : list (string * value)) :
  exists fields',
    formatReservation_model formatAsDate formatAsTime (VObj fields) = VObj fields'
    /\ own fields' "reservation_date"
       = option_map (format_field formatAsDate) (own fields "reservation_date")
    /\ own fields' "reservation_time"
       = option_map (format_field formatAsTime) (own fields "reservation_time").
Proof.
  eexists. split; [reflexivity |].
  induction fields as [| [key v] rest [IHdate IHtime]]; [split; reflexivity |].
  cbn [map own fst snd].
  destruct (String.eqb key "reservation_date") eqn:Hdate.
  - apply String.eqb_eq in Hdate. subst key. cbn [own]. split; [reflexivity | exact IHtime].
  - destruct (String.eqb key "reservation_time") eqn:Htime; cbn [own];
      rewrite Hdate; try rewrite Htime; split; (reflexivity || assumption).
Qed.

(** C6. [listReservations({ date: "2023-01-01" })], where [new URL] takes
    [<base>/reservations] as it is written, issues one request, a GET to
    [<base>/reservations?date=2023-01-01]. When the response carries a
    sequence of reservations, the call resolves with that sequence taken
    twice through the default export of [./format-reservation-date], under
    its two names: with the formatter modelled from the spec, every
    reservation comes back with its date and its time reformatted, once in
    effect when the display formats leave their own output as it is. *)
Theorem listReservations_reformats_date_and_time
    (env : option string) (parse : string -> completion parsed_url) (net : network)
    (signal : option nat) (formatAsDate formatAsTime : string -> string) :
  let address := API_BASE_URL env ++ "/reservations" in
  let params := VObj [("date", VStr "2023-01-01")] in
  let u := UrlObject (plain_url address) [("date", "2023-01-01")] in
  let o := {| opt_method := None; opt_headers := Some headers; opt_body := None;
              opt_signal := signal |} in
  let format := formatReservation_model formatAsDate formatAsTime in
  let answer := listReservations env parse
                  (formatReservations_model formatAsDate formatAsTime) net params signal in
  parse address = Return (plain_url address) ->
  requests (trace answer) = [(u, o)]
  /\ url_href u = address ++ "?date=2023-01-01"
  /\ http_method o = "GET"
  /\ forall (r : response) (payload error : value) (reservations : list value),
      net u o = Return r -> status r <> 204 -> json r = Return payload ->
      Get payload "error" = Return error -> truthy error = false ->
      Get payload "data" = Return (VArr reservations) ->
      outcome answer = Fulfilled (VArr (map (fun x => format (format x)) reservations))
      /\ ((forall s, formatAsDate (formatAsDate s) = formatAsDate s) ->
          (forall s, formatAsTime (formatAsTime s) = formatAsTime s) ->
          outcome answer = Fulfilled (VArr (map format reservations))).
Proof.
  intros address params u o format answer Hparse.
  assert (Hrun : answer
                 = formatted (formatReservations_model formatAsDate formatAsTime)
                     (fetchJson net u o (VArr []))).
  { apply (listReservations_run env parse _ net params signal (plain_url address)
             [("date", VStr "2023-01-01")] u Hparse); reflexivity. }
  split; [| split; [reflexivity | split; [reflexivity |]]].
  - rewrite Hrun. unfold formatted. rewrite !trace_then. apply requests_fetchJson.
  - intros r payload error reservations Hnet Hstatus Hjson Herror Hfalsy Hdata.
    assert (Htwice : outcome answer
                     = Fulfilled (VArr (map (fun x => format (format x)) reservations))).
    { rewrite Hrun.
      rewrite (fetchJson_data net u o (VArr []) r payload error (VArr reservations)
                 Hnet Hstatus Hjson Herror Hfalsy Hdata).
      cbn. now rewrite map_map. }
    split; [exact Htwice |].
    intros Hdate Htime. rewrite Htwice. do 2 f_equal. apply map_ext. intros x.
    apply (formatReservation_model_twice formatAsDate formatAsTime Hdate Htime).
Qed.

Lemma listReservations_reformats_date_and_time_witness :
  requests (trace (listReservations None sample_parse sample_format
                     (answering reservations_found)
                     (VObj [("date", VStr "2023-01-01")]) None))
  = [(UrlObject (plain_url "http://localhost:5001/reservations") [("date", "2023-01-01")],
      {| opt_method := None; opt_headers := Some headers; opt_body := None;
         opt_signal := None |})]
  /\ url_href (UrlObject (plain_url "http://localhost:5001/reservations")
                 [("date", "2023-01-01")])
     = "http://localhost:5001/reservations?date=2023-01-01"
  /\ outcome (listReservations None sample_parse sample_format
                (answering reservations_found)
                (VObj [("date", VStr "2023-01-01")]) None)
     = Fulfilled (VArr [VObj [("reservation_id", VNum 1);
                              ("reservation_date", VStr "2023-01-01");
                              ("reservation_time", VStr "18:00")]]).
Proof.
  destruct (listReservations_reformats_date_and_time None sample_parse
              (answering reservations_found) None leading_date leading_time eq_refl)
    as (Hrequest & Haddress & _ & Hanswer).
  split; [exact Hrequest | split; [exact Haddress |]].
  destruct (Hanswer reservations_found (VObj [("data", one_reservation)]) VUndefined
              [VObj [("reservation_id", VNum 1);
                     ("reservation_date", VStr "2023-01-01T00:00:00.000Z");
                     ("reservation_time", VStr "18:00:00")]])
    as (Htwice & _);
    [reflexivity | discriminate | reflexivity | reflexivity | reflexivity | reflexivity |].
  exact Htwice.
Defined.

(** ** Beyond the envelope: what every call does and never does *)

(** Every run of the executor has one of six shapes: the request alone or
    the request and the body read, then a value, a rejection that was not
    logged, or a rejection logged once, just before it. *)
Lemma fetchJson_cases (net : network) (u : url) (o : options) (onCancel : value) :
  (exists v, fetchJson net u o onCancel = ([Fetch u o], Fulfilled v))
  \/ (exists v, fetchJson net u o onCancel = ([Fetch u o; ResponseJson], Fulfilled v))
  \/ (exists e, fetchJson net u o onCancel = ([Fetch u o], Rejected e))
  \/ (exists e, fetchJson net u o onCancel = ([Fetch u o; ResponseJson], Rejected e))
  \/ (exists e, fetchJson net u o onCancel = ([Fetch u o; ConsoleError e], Rejected e))
  \/ (exists e,
        fetchJson net u o onCancel = ([Fetch u o; ResponseJson; ConsoleError e], Rejected e)).
Proof.
  unfold fetchJson, fetch, response_json.
  destruct (net u o) as [r | e]; cbn.
  - destruct (status r =? 204); cbn; [eauto |].
    destruct (json r) as [payload | e]; cbn.
    + destruct (Get payload "error") as [error | e]; cbn.
      * destruct (truthy error); cbn; [eauto 6 |].
        destruct (Get payload "data") as [data | e]; cbn; [eauto |].
        destruct (GetExn e "name") as [name | e']; cbn; [| eauto 6].
        destruct (strict_neq_string name "AbortError"); cbn; eauto 10.
      * destruct (GetExn e "name") as [name | e']; cbn; [| eauto 6].
        destruct (strict_neq_string name "AbortError"); cbn; eauto 10.
    + destruct (GetExn e "name") as [name | e']; cbn; [| eauto 6].
      destruct (strict_neq_string name "AbortError"); cbn; eauto 10.
  - destruct (GetExn e "name") as [name | e']; cbn; [| eauto 6].
    destruct (strict_neq_string name "AbortError"); cbn; eauto 10.
Qed.

Section Calls.

Variable env : option string.
Variable parse : string -> completion parsed_url.
Variable fmt : value -> completion value.
Variable net : network.

(** X1. A call issues at most one request. When it issues none it has done
    nothing at all, and it rejects: an argument stopped it before [fetch].
    When it issues one, the request is the first event of the call. *)
Theorem at_most_one_request (c : call) (signal : option nat) :
  (trace (run env parse fmt net c signal) = []
   /\ exists e, outcome (run env parse fmt net c signal) = Rejected e)
  \/ (exists (u : url) (o : options) (rest : list event),
        trace (run env parse fmt net c signal) = Fetch u o :: rest
        /\ requests (trace (run env parse fmt net c signal)) = [(u, o)]).
Proof.
  rewrite run_request_of.
  destruct (request_of env parse c signal) as [[u o] | e].
  - right. exists u, o. rewrite trace_finish.
    pose proof (requests_fetchJson net u o (onCancel_of c)) as Hreq.
    destruct (fetchJson_cases net u o (onCancel_of c))
      as [[v H] | [[v H] | [[e H] | [[e H] | [[e H] | [e H]]]]]];
      rewrite H in *; eexists; (split; [reflexivity | exact Hreq]).
  - left. split; [reflexivity | now exists e].
Qed.

(** X2. Whatever a call logs, it rejects with: an error written to the
    console is the reason of the rejection, so a call that resolves has
    logged nothing. *)
Theorem logged_error_is_the_rejection (c : call) (signal : option nat) (e : exn) :
  In (ConsoleError e) (trace (run env parse fmt net c signal)) ->
  outcome (run env parse fmt net c signal) = Rejected e.
Proof.
  rewrite run_request_of.
  destruct (request_of env parse c signal) as [[u o] | e0]; [| intros []].
  rewrite trace_finish.
  destruct (fetchJson_cases net u o (onCancel_of c))
    as [[v H] | [[v H] | [[e1 H] | [[e1 H] | [[e1 H] | [e1 H]]]]]];
    rewrite H; cbn [trace fst]; intros Hin;
    repeat (destruct Hin as [Hin | Hin]; try discriminate Hin);
    try contradiction;
    inversion Hin; subst; now rewrite finish_rejected.
Qed.

End Calls.

Lemma logged_error_is_the_rejection_witness :
  outcome (run None sample_parse sample_format (failing offline) (ListTables) None) = Rejected offline.
Proof.
  apply (logged_error_is_the_rejection None sample_parse sample_format (failing offline) ListTables None
           offline).
  cbn. right. left. reflexivity.
Defined.

(** ** Failures of the transport *)

Lemma strict_neq_string_false (v : value) (s : string) :
  strict_neq_string v s = false -> v = VStr s.
Proof.
  destruct v; cbn; try discriminate.
  intros H. apply negb_false_iff, String.eqb_eq in H. now subst.
Qed.

(** A property read throws nothing but a [TypeError]. *)
Lemma Get_throws_TypeError (v : value) (key : string) (e : exn) :
  Get v key = Throw e -> exists message, e = TypeError message.
Proof.
  destruct v; cbn; try discriminate.
  - intros H. inversion H. eauto.
  - intros H. inversion H. eauto.
  - destruct (own fields key); discriminate.
Qed.

(** X3. A failure of [fetch] that is not an abort (the network is down, the
    request is refused) is logged once and raised again as it is, by every
    operation: [listReservations] does not run its formatters on it. *)
Theorem transport_failure_logged_and_reraised
    (env : option string) (parse : string -> completion parsed_url)
    (fmt : value -> completion value) (net : network)
    (c : call) (signal : option nat) (u : url) (o : options) (e : exn) (name : value) :
  requests (trace (run env parse fmt net c signal)) = [(u, o)] ->
  net u o = Throw e -> GetExn e "name" = Return name ->
  strict_neq_string name "AbortError" = true ->
  run env parse fmt net c signal = ([Fetch u o; ConsoleError e], Rejected e).
Proof.
  intros Hreq Hnet Hname Hother.
  rewrite (issued_run env parse fmt net c signal u o Hreq).
  rewrite (fetchJson_transport_failure net u o (onCancel_of c) e name Hnet Hname Hother).
  apply finish_rejected.
Qed.

Lemma transport_failure_logged_and_reraised_witness :
  run None sample_parse sample_format (failing offline)
    (UpdateReservationStatus (VNum 3) (VStr "cancelled")) None
  = ([Fetch (UrlString "http://localhost:5001/reservations/3/status")
        {| opt_method := Some "PUT"; opt_headers := Some headers;
           opt_body := JSON_stringify (VObj [("data", VObj [("status", VStr "cancelled")])]);
           opt_signal := None |};
      ConsoleError offline],
     Rejected offline).
Proof.
  apply (transport_failure_logged_and_reraised None sample_parse sample_format (failing offline)
           (UpdateReservationStatus (VNum 3) (VStr "cancelled")) None _ _ offline
           (VStr "TypeError"));
    reflexivity.
Defined.

(** X4. A body that does not parse as JSON, under any status other than
    204, fails the call the same way: the error of [response.json()] is
    logged once and raised again as it is, after the body read. *)
Theorem unparsable_body_logged_and_reraised
    (env : option string) (parse : string -> completion parsed_url)
    (fmt : value -> completion value) (net : network)
    (c : call) (signal : option nat) (u : url) (o : options)
    (r : response) (e : exn) (name : value) :
  requests (trace (run env parse fmt net c signal)) = [(u, o)] ->
  net u o = Return r -> status r <> 204 -> json r = Throw e ->
  GetExn e "name" = Return name -> strict_neq_string name "AbortError" = true ->
  run env parse fmt net c signal = ([Fetch u o; ResponseJson; ConsoleError e], Rejected e).
Proof.
  intros Hreq Hnet Hstatus Hjson Hname Hother.
  rewrite (issued_run env parse fmt net c signal u o Hreq).
  assert (Hexec : fetchJson net u o (onCancel_of c)
                  = ([Fetch u o; ResponseJson; ConsoleError e], Rejected e)).
  { unfold fetchJson, fetch, response_json. rewrite Hnet. cbn.
    apply Z.eqb_neq in Hstatus. rewrite Hstatus, Hjson. cbn.
    rewrite Hname. cbn. rewrite Hother. reflexivity. }
  rewrite Hexec. apply finish_rejected.
Qed.

Lemma unparsable_body_logged_and_reraised_witness :
  run None sample_parse sample_format (answering bad_gateway_page)
    (ListReservations (VObj [("date", VStr "2023-01-01")])) None
  = ([Fetch (UrlObject (plain_url "http://localhost:5001/reservations") [("date", "2023-01-01")])
        {| opt_method := None; opt_headers := Some headers; opt_body := None;
           opt_signal := None |};
      ResponseJson;
      ConsoleError (Error "SyntaxError" "Unexpected token < in JSON")],
     Rejected (Error "SyntaxError" "Unexpected token < in JSON")).
Proof.
  apply (unparsable_body_logged_and_reraised None sample_parse sample_format (answering bad_gateway_page)
           (ListReservations (VObj [("date", VStr "2023-01-01")])) None _ _
           bad_gateway_page (Error "SyntaxError" "Unexpected token < in JSON")
           (VStr "SyntaxError"));
    [reflexivity | reflexivity | discriminate | reflexivity | reflexivity | reflexivity].
Defined.

(** X5. When [fetch] rejects with [null] or [undefined] as its reason, the
    [catch] block fails on [error.name]: the call rejects with that
    [TypeError] in place of the reason, it logs nothing, and it does not
    resolve with the fallback. *)
Theorem empty_reason_breaks_the_handler
    (env : option string) (parse : string -> completion parsed_url)
    (fmt : value -> completion value) (net : network)
    (c : call) (signal : option nat) (u : url) (o : options) (reason : value) :
  requests (trace (run env parse fmt net c signal)) = [(u, o)] ->
  net u o = Throw (Thrown reason) ->
  reason = VNull \/ reason = VUndefined ->
  exists message,
    run env parse fmt net c signal = ([Fetch u o], Rejected (TypeError message)).
Proof.
  intros Hreq Hnet Hreason.
  rewrite (issued_run env parse fmt net c signal u o Hreq).
  unfold fetchJson, fetch. rewrite Hnet.
  destruct Hreason as [-> | ->]; cbn; eexists; apply finish_rejected.
Qed.

Lemma empty_reason_breaks_the_handler_witness :
  exists message,
    run None sample_parse sample_format (failing (Thrown VNull)) (CreateTable (VObj [])) None
    = ([Fetch (UrlString "http://localhost:5001/tables")
          {| opt_method := Some "POST"; opt_headers := Some headers;
             opt_body := JSON_stringify (VObj [("data", VObj [])]);
             opt_signal := None |}],
       Rejected (TypeError message)).
Proof.
  apply (empty_reason_breaks_the_handler None sample_parse sample_format (failing (Thrown VNull))
           (CreateTable (VObj [])) None _ _ VNull);
    [reflexivity | reflexivity | left; reflexivity].
Defined.

(** X6. The fallback matters only when the transport reports an abort: for
    any other answer of the network the executor does the same and settles
    the same whatever fallback it was given. *)
Theorem fallback_only_on_abort
    (net : network) (u : url) (o : options) (onCancel onCancel' : value) :
  ~ reports_abort net u o ->
  fetchJson net u o onCancel = fetchJson net u o onCancel'.
Proof.
  intros Hno. unfold fetchJson, fetch, response_json.
  destruct (net u o) as [r | e] eqn:Hnet; cbn.
  - destruct (status r =? 204) eqn:Hstatus; cbn; [reflexivity |].
    apply Z.eqb_neq in Hstatus.
    destruct (json r) as [payload | e] eqn:Hjson; cbn.
    + destruct (Get payload "error") as [error | e] eqn:Herror; cbn.
      * destruct (truthy error); cbn; [reflexivity |].
        destruct (Get payload "data") as [data | e] eqn:Hdata; cbn; [reflexivity |].
        destruct (Get_throws_TypeError payload "data" e Hdata) as (message & ->).
        reflexivity.
      * destruct (Get_throws_TypeError payload "error" e Herror) as (message & ->).
        reflexivity.
    + destruct (GetExn e "name") as [name | e'] eqn:Hname; cbn; [| reflexivity].
      destruct (strict_neq_string name "AbortError") eqn:Hother; [reflexivity |].
      apply strict_neq_string_false in Hother. subst name.
      exfalso. apply Hno. exists e. split; [exact Hname |]. right. now exists r.
  - destruct (GetExn e "name") as [name | e'] eqn:Hname; cbn; [| reflexivity].
    destruct (strict_neq_string name "AbortError") eqn:Hother; [reflexivity |].
    apply strict_neq_string_false in Hother. subst name.
    exfalso. apply Hno. exists e. split; [exact Hname |]. now left.
Qed.

Lemma fallback_only_on_abort_witness :
  fetchJson (answering not_found) (UrlString "http://localhost:5001/reservations/99")
    {| opt_method := None; opt_headers := None; opt_body := None; opt_signal := None |}
    (VObj [])
  = fetchJson (answering not_found) (UrlString "http://localhost:5001/reservations/99")
      {| opt_method := None; opt_headers := None; opt_body := None; opt_signal := None |}
      VUndefined.
Proof.
  apply (fallback_only_on_abort (answering not_found)).
  intros (e & _ & [H | (r & H & _ & Hjson)]).
  - discriminate H.
  - inversion H. subst r. discriminate Hjson.
Defined.

(** ** What every request looks like *)

(** The requests of a call, read off its arguments alone. *)
Lemma requests_run
    (env : option string) (parse : string -> completion parsed_url)
    (fmt : value -> completion value) (net : network)
    (c : call) (signal : option nat) :
  requests (trace (run env parse fmt net c signal))
  = match request_of env parse c signal with
    | Return request => [request]
    | Throw _ => []
    end.
Proof.
  rewrite run_request_of.
  destruct (request_of env parse c signal) as [[u o] | e]; [| reflexivity].
  rewrite trace_finish. apply requests_fetchJson.
Qed.

Ltac invert_request H :=
  cbn -[JSON_stringify] in H;
  repeat match type of H with
         | bindC ?x _ = _ => destruct x; cbn -[JSON_stringify] in H; [| discriminate H]
         end;
  try set (body := JSON_stringify _) in H;
  injection H as <- <-.

(** X7. Every request carries the caller's signal and one of four methods.
    It has a body exactly when the method is POST or PUT; that body is the
    serialization of an object whose one key is [data], and it never goes
    without the JSON content type header. *)
Theorem request_is_coherent
    (env : option string) (parse : string -> completion parsed_url)
    (fmt : value -> completion value) (net : network)
    (c : call) (signal : option nat) (u : url) (o : options) :
  requests (trace (run env parse fmt net c signal)) = [(u, o)] ->
  opt_signal o = signal
  /\ (http_method o = "GET" \/ http_method o = "POST"
      \/ http_method o = "PUT" \/ http_method o = "DELETE")
  /\ (opt_body o = None <-> http_method o = "GET" \/ http_method o = "DELETE")
  /\ (opt_body o <> None ->
      opt_headers o = Some [("Content-Type", "application/json")]
      /\ exists data, opt_body o = JSON_stringify (VObj [("data", data)])).
Proof.
  intros Hreq. apply issued_request_of in Hreq.
  destruct c; invert_request Hreq; cbn [opt_signal opt_body opt_headers opt_method http_method];
    (split; [reflexivity |]);
    (split; [tauto |]);
    (split; [split; [intros Hnone; try (subst body; cbn in Hnone);
                     (tauto || discriminate Hnone)
                    | intros [H | H]; (reflexivity || discriminate H)] |]);
    intros Hbody; try congruence;
    (split; [reflexivity | subst body; eexists; reflexivity]).
Qed.

Lemma request_is_coherent_witness :
  opt_signal seat_nine_options = Some 4%nat
  /\ (http_method seat_nine_options = "GET" \/ http_method seat_nine_options = "POST"
      \/ http_method seat_nine_options = "PUT" \/ http_method seat_nine_options = "DELETE")
  /\ (opt_body seat_nine_options = None
      <-> http_method seat_nine_options = "GET" \/ http_method seat_nine_options = "DELETE")
  /\ (opt_body seat_nine_options <> None ->
      opt_headers seat_nine_options = Some [("Content-Type", "application/json")]
      /\ exists data, opt_body seat_nine_options = JSON_stringify (VObj [("data", data)])).
Proof.
  apply (request_is_coherent None sample_parse sample_format (answering no_content)
           (SeatReservation (VNum 9) (VObj [("table_id", VNum 5)])) (Some 4%nat)
           (UrlString "http://localhost:5001/tables/5/seat") seat_nine_options).
  reflexivity.
Defined.

(** ** Where the requests go *)


Lemma string_append_assoc (s t w : string) : (s ++ t) ++ w = s ++ (t ++ w).
Proof. induction s as [| a s IH]; cbn; [reflexivity | now rewrite IH]. Qed.

Lemma string_append_nil (s : string) : s ++ EmptyString = s.
Proof. induction s as [| a s IH]; cbn; [reflexivity | now rewrite IH]. Qed.





(** ** Records and their addresses *)

(** X9. [seatReservation] issues one PUT to [<base>/tables/<table_id>/seat]
    whose body holds the reservation id and nothing of the table, and
    [finishTable] on the same table addresses the same URL. *)
Theorem seat_and_finish_address_one_table
    (env : option string) (net : network) (reservation_id table : value)
    (signal : option nat) (table_id : value) (id : string) :
  Get table "table_id" = Return table_id -> ToString table_id = Return id ->
  requests (trace (seatReservation env net reservation_id table signal))
  = [(UrlString (API_BASE_URL env ++ "/tables/" ++ id ++ "/seat"),
      {| opt_method := Some "PUT"; opt_headers := Some headers;
         opt_body := JSON_stringify (VObj [("data", VObj [("reservation_id", reservation_id)])]);
         opt_signal := signal |})]
  /\ map fst (requests (trace (finishTable env net table signal)))
     = map fst (requests (trace (seatReservation env net reservation_id table signal))).
Proof.
  intros Hget Hstring.
  pose proof (requests_run env sample_parse (fun v => Return v) net
                (SeatReservation reservation_id table) signal) as Hseat.
  pose proof (requests_run env sample_parse (fun v => Return v) net (FinishTable table) signal) as Hfinish.
  cbn -[JSON_stringify] in Hseat, Hfinish.
  rewrite Hget in Hseat, Hfinish. cbn -[JSON_stringify] in Hseat, Hfinish.
  rewrite Hstring in Hseat, Hfinish. cbn -[JSON_stringify] in Hseat, Hfinish.
  rewrite Hseat, Hfinish. split; reflexivity.
Qed.

Lemma seat_and_finish_address_one_table_witness :
  requests (trace (seatReservation None (answering no_content) (VNum 9)
                     (VObj [("table_id", VNum 5); ("capacity", VNum 4)]) None))
  = [(UrlString "http://localhost:5001/tables/5/seat",
      {| opt_method := Some "PUT"; opt_headers := Some headers;
         opt_body := JSON_stringify (VObj [("data", VObj [("reservation_id", VNum 9)])]);
         opt_signal := None |})]
  /\ map fst (requests (trace (finishTable None (answering no_content)
                                 (VObj [("table_id", VNum 5); ("capacity", VNum 4)]) None)))
     = map fst (requests (trace (seatReservation None (answering no_content) (VNum 9)
                                   (VObj [("table_id", VNum 5); ("capacity", VNum 4)])
                                   None))).
Proof.
  apply (seat_and_finish_address_one_table None (answering no_content) (VNum 9)
           (VObj [("table_id", VNum 5); ("capacity", VNum 4)]) None (VNum 5) "5");
    reflexivity.
Defined.

(** X10. The three operations on one reservation agree on its address.
    [updateReservation] puts the whole record to
    [<base>/reservations/<id>], [<id>] being the record's own
    [reservation_id]; [readReservation] of that id gets the same URL, with
    no method, headers or body of its own; [updateReservationStatus] puts
    [{ data: { status } }] to that URL followed by [/status]. *)
Theorem reservation_operations_share_the_address
    (env : option string) (net : network) (reservation status : value)
    (signal : option nat) (reservation_id : value) (id : string) :
  Get reservation "reservation_id" = Return reservation_id ->
  ToString reservation_id = Return id ->
  requests (trace (updateReservation env net reservation signal))
  = [(UrlString (API_BASE_URL env ++ "/reservations/" ++ id),
      {| opt_method := Some "PUT"; opt_headers := Some headers;
         opt_body := JSON_stringify (VObj [("data", reservation)]);
         opt_signal := signal |})]
  /\ requests (trace (readReservation env net reservation_id signal))
     = [(UrlString (API_BASE_URL env ++ "/reservations/" ++ id),
         {| opt_method := None; opt_headers := None; opt_body := None;
            opt_signal := signal |})]
  /\ requests (trace (updateReservationStatus env net reservation_id status signal))
     = [(UrlString (API_BASE_URL env ++ "/reservations/" ++ id ++ "/status"),
         {| opt_method := Some "PUT"; opt_headers := Some headers;
            opt_body := JSON_stringify (VObj [("data", VObj [("status", status)])]);
            opt_signal := signal |})].
Proof.
  intros Hget Hstring.
  pose proof (requests_run env sample_parse (fun v => Return v) net
                (UpdateReservation reservation) signal) as Hupdate.
  pose proof (requests_run env sample_parse (fun v => Return v) net
                (ReadReservation reservation_id) signal) as Hread.
  pose proof (requests_run env sample_parse (fun v => Return v) net
                (UpdateReservationStatus reservation_id status) signal) as Hstatus.
  cbn -[JSON_stringify] in Hupdate, Hread, Hstatus.
  rewrite Hget in Hupdate. cbn -[JSON_stringify] in Hupdate.
  rewrite Hstring in Hupdate, Hread, Hstatus.
  cbn -[JSON_stringify] in Hupdate, Hread, Hstatus.
  rewrite Hupdate, Hread, Hstatus. repeat split.
Qed.

Lemma reservation_operations_share_the_address_witness :
  requests (trace (updateReservation None (answering no_content)
                     (VObj [("reservation_id", VNum 3); ("people", VNum 2)]) None))
  = [(UrlString "http://localhost:5001/reservations/3",
      {| opt_method := Some "PUT"; opt_headers := Some headers;
         opt_body := JSON_stringify
                       (VObj [("data", VObj [("reservation_id", VNum 3); ("people", VNum 2)])]);
         opt_signal := None |})]
  /\ requests (trace (readReservation None (answering no_content) (VNum 3) None))
     = [(UrlString "http://localhost:5001/reservations/3",
         {| opt_method := None; opt_headers := None; opt_body := None;
            opt_signal := None |})]
  /\ requests (trace (updateReservationStatus None (answering no_content) (VNum 3)
                        (VStr "finished") None))
     = [(UrlString "http://localhost:5001/reservations/3/status",
         {| opt_method := Some "PUT"; opt_headers := Some headers;
            opt_body := JSON_stringify (VObj [("data", VObj [("status", VStr "finished")])]);
            opt_signal := None |})].
Proof.
  apply (reservation_operations_share_the_address None (answering no_content)
           (VObj [("reservation_id", VNum 3); ("people", VNum 2)]) (VStr "finished") None
           (VNum 3) "3");
    reflexivity.
Defined.

(** ** Arguments that lack what the operation reads *)

Lemma Get_missing (record : value) (key : string) :
  record <> VNull -> record <> VUndefined -> has_field record key = false ->
  Get record key = Return VUndefined.
Proof.
  intros Hnull Hundef Hfield.
  destruct record; try reflexivity; try contradiction.
  cbn in *. now destruct (own fields key).
Qed.

(** X11. A record without the identifier is not stopped: the template
    literal writes [undefined] into the path and the request goes out.
    [updateReservation] of a record with no [reservation_id] puts it to
    [<base>/reservations/undefined]; [seatReservation] and [finishTable] of
    a table with no [table_id] address [<base>/tables/undefined/seat]. *)
Theorem missing_identifier_is_written_undefined
    (env : option string) (net : network) (record reservation_id : value)
    (signal : option nat) :
  record <> VNull -> record <> VUndefined ->
  (has_field record "reservation_id" = false ->
   requests (trace (updateReservation env net record signal))
   = [(UrlString (API_BASE_URL env ++ "/reservations/undefined"),
       {| opt_method := Some "PUT"; opt_headers := Some headers;
          opt_body := JSON_stringify (VObj [("data", record)]);
          opt_signal := signal |})])
  /\ (has_field record "table_id" = false ->
      map fst (requests (trace (seatReservation env net reservation_id record signal)))
      = [UrlString (API_BASE_URL env ++ "/tables/undefined/seat")]
      /\ map fst (requests (trace (finishTable env net record signal)))
         = [UrlString (API_BASE_URL env ++ "/tables/undefined/seat")]).
Proof.
  intros Hnull Hundef. split; intros Hfield.
  - pose proof (requests_run env sample_parse (fun v => Return v) net (UpdateReservation record) signal)
      as Hupdate.
    cbn -[JSON_stringify] in Hupdate.
    rewrite (Get_missing record "reservation_id" Hnull Hundef Hfield) in Hupdate.
    exact Hupdate.
  - pose proof (requests_run env sample_parse (fun v => Return v) net
                  (SeatReservation reservation_id record) signal) as Hseat.
    pose proof (requests_run env sample_parse (fun v => Return v) net (FinishTable record) signal)
      as Hfinish.
    cbn -[JSON_stringify] in Hseat, Hfinish.
    rewrite (Get_missing record "table_id" Hnull Hundef Hfield) in Hseat, Hfinish.
    cbn -[JSON_stringify] in Hseat, Hfinish.
    rewrite Hseat, Hfinish. split; reflexivity.
Qed.

Lemma missing_identifier_is_written_undefined_witness :
  requests (trace (updateReservation None (answering no_content)
                     (VObj [("first_name", VStr "Ada")]) None))
  = [(UrlString "http://localhost:5001/reservations/undefined",
      {| opt_method := Some "PUT"; opt_headers := Some headers;
         opt_body := JSON_stringify (VObj [("data", VObj [("first_name", VStr "Ada")])]);
         opt_signal := None |})]
  /\ map fst (requests (trace (seatReservation None (answering no_content) (VNum 9)
                                 (VObj [("first_name", VStr "Ada")]) None)))
     = [UrlString "http://localhost:5001/tables/undefined/seat"]
  /\ map fst (requests (trace (finishTable None (answering no_content)
                                 (VObj [("first_name", VStr "Ada")]) None)))
     = [UrlString "http://localhost:5001/tables/undefined/seat"].
Proof.
  destruct (missing_identifier_is_written_undefined None (answering no_content)
              (VObj [("first_name", VStr "Ada")]) (VNum 9) None)
    as (Hupdate & Htable); [discriminate | discriminate |].
  split; [apply Hupdate; reflexivity | apply Htable; reflexivity].
Defined.

(** X12. [null] or [undefined] in the place of the record stops
    [updateReservation], [seatReservation] and [finishTable] at the property
    read: they reject with a [TypeError] and nothing happens, no request and
    no log. [createReservation] and [createTable] read nothing of the
    record and post it even so. *)
Theorem absent_record_stops_before_the_request
    (env : option string) (net : network)
    (record reservation_id : value) (signal : option nat) :
  record = VNull \/ record = VUndefined ->
  (exists message,
      updateReservation env net record signal = ([], Rejected (TypeError message)))
  /\ (exists message,
        seatReservation env net reservation_id record signal
        = ([], Rejected (TypeError message)))
  /\ (exists message,
        finishTable env net record signal = ([], Rejected (TypeError message)))
  /\ requests (trace (createReservation env net record signal))
     = [(UrlString (API_BASE_URL env ++ "/reservations"),
         {| opt_method := Some "POST"; opt_headers := Some headers;
            opt_body := JSON_stringify (VObj [("data", record)]);
            opt_signal := signal |})]
  /\ requests (trace (createTable env net record signal))
     = [(UrlString (API_BASE_URL env ++ "/tables"),
         {| opt_method := Some "POST"; opt_headers := Some headers;
            opt_body := JSON_stringify (VObj [("data", record)]);
            opt_signal := signal |})].
Proof.
  intros Hrecord.
  pose proof (run_request_of env sample_parse (fun v => Return v) net (UpdateReservation record) signal)
    as Hupdate.
  pose proof (run_request_of env sample_parse (fun v => Return v) net
                (SeatReservation reservation_id record) signal) as Hseat.
  pose proof (run_request_of env sample_parse (fun v => Return v) net (FinishTable record) signal)
    as Hfinish.
  pose proof (requests_run env sample_parse (fun v => Return v) net (CreateReservation record) signal)
    as Hreservation.
  pose proof (requests_run env sample_parse (fun v => Return v) net (CreateTable record) signal)
    as Htable.
  cbn [run] in *. rewrite Hupdate, Hseat, Hfinish, Hreservation, Htable.
  destruct Hrecord as [-> | ->]; cbn -[JSON_stringify]; repeat split; eexists; reflexivity.
Qed.

Lemma absent_record_stops_before_the_request_witness :
  (exists message,
      updateReservation None (answering no_content) VUndefined None
      = ([], Rejected (TypeError message)))
  /\ (exists message,
        seatReservation None (answering no_content) (VNum 1) VUndefined None
        = ([], Rejected (TypeError message)))
  /\ (exists message,
        finishTable None (answering no_content) VUndefined None
        = ([], Rejected (TypeError message)))
  /\ requests (trace (createReservation None (answering no_content) VUndefined None))
     = [(UrlString "http://localhost:5001/reservations",
         {| opt_method := Some "POST"; opt_headers := Some headers;
            opt_body := Some "{}"; opt_signal := None |})]
  /\ requests (trace (createTable None (answering no_content) VUndefined None))
     = [(UrlString "http://localhost:5001/tables",
         {| opt_method := Some "POST"; opt_headers := Some headers;
            opt_body := Some "{}"; opt_signal := None |})].
Proof.
  apply (absent_record_stops_before_the_request None (answering no_content)
           VUndefined (VNum 1) None).
  right. reflexivity.
Defined.

(** ** The list operation *)

Lemma forEach_append_all (entries : list (string * value)) (shown : list (string * string)) :
  Forall2 (fun entry p => fst p = fst entry /\ toString (snd entry) = Return (snd p))
    entries shown ->
  forall (parsed : parsed_url) (appended : list (string * string)),
    forEach_append entries (UrlObject parsed appended)
    = Return (UrlObject parsed (appended ++ shown)%list).
Proof.
  induction 1 as [| [key v] [key' s] entries shown [Hkey Hstring] _ IH];
    intros parsed appended; cbn in *.
  - now rewrite app_nil_r.
  - subst key'. rewrite Hstring. cbn. rewrite IH, <- app_assoc. reflexivity.
Qed.

(** X13. Where [new URL] accepts [<base>/reservations], [listReservations]
    turns the entries of [params] into search parameters of that URL one
    for one and in order: each key as it is, each value as its [toString]
    gives it. The request has no method of its own, no body, the shared
    headers and the caller's signal. *)
Theorem listReservations_passes_every_entry
    (env : option string) (parse : string -> completion parsed_url)
    (fmt : value -> completion value) (net : network)
    (params : value) (signal : option nat) (parsed : parsed_url)
    (entries : list (string * value)) (shown : list (string * string)) :
  parse (API_BASE_URL env ++ "/reservations") = Return parsed ->
  Object_entries params = Return entries ->
  Forall2 (fun entry p => fst p = fst entry /\ toString (snd entry) = Return (snd p))
    entries shown ->
  requests (trace (listReservations env parse fmt net params signal))
  = [(UrlObject parsed shown,
      {| opt_method := None; opt_headers := Some headers; opt_body := None;
         opt_signal := signal |})].
Proof.
  intros Hparse Hentries Hshown.
  apply (listReservations_request env parse fmt net params signal parsed entries);
    [exact Hparse | exact Hentries |].
  now rewrite (forEach_append_all entries shown Hshown).
Qed.

Lemma listReservations_passes_every_entry_witness :
  requests (trace (listReservations None sample_parse sample_format (answering no_content)
                     (VObj [("date", VStr "2023-01-01"); ("people", VNum 4);
                            ("seated", VBool false)])
                     None))
  = [(UrlObject (plain_url "http://localhost:5001/reservations")
        [("date", "2023-01-01"); ("people", "4"); ("seated", "false")],
      {| opt_method := None; opt_headers := Some headers; opt_body := None;
         opt_signal := None |})].
Proof.
  apply (listReservations_passes_every_entry None sample_parse sample_format
           (answering no_content)
           (VObj [("date", VStr "2023-01-01"); ("people", VNum 4); ("seated", VBool false)])
           None (plain_url "http://localhost:5001/reservations")
           [("date", VStr "2023-01-01"); ("people", VNum 4); ("seated", VBool false)]
           [("date", "2023-01-01"); ("people", "4"); ("seated", "false")]).
  - reflexivity.
  - reflexivity.
  - repeat (constructor; [split; reflexivity |]). constructor.
Defined.

Lemma forEach_append_stops (entries : list (string * value)) (key : string) (v : value) :
  In (key, v) entries -> v = VNull \/ v = VUndefined ->
  forall u, exists e, forEach_append entries u = Throw e.
Proof.
  intros Hin Hv. induction entries as [| [key' v'] rest IH]; [contradiction |].
  intros u. cbn. destruct Hin as [Heq | Hin].
  - inversion Heq. subst. destruct Hv as [-> | ->]; cbn; eauto.
  - destruct (toString v') as [s | e]; cbn; [apply (IH Hin) | eauto].
Qed.

(** X14. [listReservations] wants an object with values it can call
    [toString] on. With [null] or [undefined] for [params], or for the value
    of any one entry, it rejects before anything is requested. *)
Theorem listReservations_rejects_absent_values
    (env : option string) (parse : string -> completion parsed_url)
    (fmt : value -> completion value) (net : network)
    (params : value) (signal : option nat) :
  params = VNull \/ params = VUndefined
  \/ (exists entries key v,
         Object_entries params = Return entries
         /\ In (key, v) entries /\ (v = VNull \/ v = VUndefined)) ->
  exists e, listReservations env parse fmt net params signal = ([], Rejected e).
Proof.
  intros Hparams. unfold listReservations. rewrite async_bind_lift.
  destruct (URL_new parse (API_BASE_URL env ++ "/reservations")) as [u0 | e0]; [| eauto].
  rewrite async_bind_lift.
  destruct Hparams as [-> | [-> | (entries & key & v & Hentries & Hin & Hv)]];
    [cbn; eauto | cbn; eauto |].
  rewrite Hentries, async_bind_lift.
  destruct (forEach_append_stops entries key v Hin Hv u0) as (e & ->).
  eauto.
Qed.

Lemma listReservations_rejects_absent_values_witness :
  exists e,
    listReservations None sample_parse sample_format (answering reservations_found)
      (VObj [("date", VStr "2023-01-01"); ("mobile_number", VUndefined)]) None
    = ([], Rejected e).
Proof.
  apply (listReservations_rejects_absent_values None sample_parse sample_format
           (answering reservations_found)).
  right. right.
  exists [("date", VStr "2023-01-01"); ("mobile_number", VUndefined)],
    "mobile_number", VUndefined.
  split; [reflexivity | split; [right; left; reflexivity | right; reflexivity]].
Defined.

(** X15. The collections have one address each. With no entry to append,
    and where [new URL] takes [<base>/reservations] as it is written,
    [listReservations] requests that address with no query string, the
    address [createReservation] posts to; [listTables] gets [<base>/tables],
    the address [createTable] posts to. *)
Theorem collections_have_one_address
    (env : option string) (parse : string -> completion parsed_url)
    (fmt : value -> completion value) (net : network)
    (params record : value) (signal : option nat) :
  parse (API_BASE_URL env ++ "/reservations")
  = Return (plain_url (API_BASE_URL env ++ "/reservations")) ->
  Object_entries params = Return [] ->
  map (fun request => url_href (fst request))
    (requests (trace (listReservations env parse fmt net params signal)))
  = [API_BASE_URL env ++ "/reservations"]
  /\ map (fun request => url_href (fst request))
       (requests (trace (createReservation env net record signal)))
     = [API_BASE_URL env ++ "/reservations"]
  /\ requests (trace (listTables env net signal))
     = [(UrlString (API_BASE_URL env ++ "/tables"),
         {| opt_method := None; opt_headers := None; opt_body := None;
            opt_signal := signal |})]
  /\ map fst (requests (trace (createTable env net record signal)))
     = [UrlString (API_BASE_URL env ++ "/tables")].
Proof.
  intros Hparse Hentries.
  rewrite (listReservations_request env parse fmt net params signal
             (plain_url (API_BASE_URL env ++ "/reservations")) []
             (UrlObject (plain_url (API_BASE_URL env ++ "/reservations")) [])
             Hparse Hentries eq_refl).
  pose proof (requests_run env parse fmt net (CreateReservation record) signal) as Hcreate.
  pose proof (requests_run env parse fmt net ListTables signal) as Htables.
  pose proof (requests_run env parse fmt net (CreateTable record) signal) as Htable.
  cbn -[JSON_stringify] in Hcreate, Htables, Htable.
  rewrite Hcreate, Htables, Htable. repeat split.
Qed.

Lemma collections_have_one_address_witness :
  map (fun request => url_href (fst request))
    (requests (trace (listReservations None sample_parse sample_format
                        (answering no_content) (VObj []) None)))
  = ["http://localhost:5001/reservations"]
  /\ map (fun request => url_href (fst request))
       (requests (trace (createReservation None (answering no_content) (VObj []) None)))
     = ["http://localhost:5001/reservations"]
  /\ requests (trace (listTables None (answering no_content) None))
     = [(UrlString "http://localhost:5001/tables",
         {| opt_method := None; opt_headers := None; opt_body := None;
            opt_signal := None |})]
  /\ map fst (requests (trace (createTable None (answering no_content) (VObj []) None)))
     = [UrlString "http://localhost:5001/tables"].
Proof.
  apply (collections_have_one_address None sample_parse sample_format
           (answering no_content) (VObj []) (VObj []) None);
    reflexivity.
Defined.

Lemma form_encode_safe (s : string) : form_safe s = true -> form_encode s = s.
Proof.
  induction s as [| c s IH]; cbn; [reflexivity |].
  intros H. apply andb_true_iff in H. destruct H as [Hc Hs].
  rewrite (IH Hs). unfold form_encode_byte.
  destruct (Nat.eqb (nat_of_ascii c) 32) eqn:Hspace.
  - apply Nat.eqb_eq in Hspace. rewrite Hspace in Hc. discriminate Hc.
  - now rewrite Hc.
Qed.

(** X16. For a phone number of letters, digits and [* - . _] only, and
    where [new URL] takes [<base>/reservations] as it is written,
    [searchByPhone] asks for the very address that [listReservations] asks
    for when given [{ mobile_number }]:
    [<base>/reservations?mobile_number=<number>]. Only [listReservations]
    encodes what it writes; [searchByPhone] writes the number as it is. *)
Theorem searchByPhone_is_the_filtered_list
    (env : option string) (parse : string -> completion parsed_url)
    (fmt : value -> completion value) (net : network)
    (mobile_number : string) (signal : option nat) :
  parse (API_BASE_URL env ++ "/reservations")
  = Return (plain_url (API_BASE_URL env ++ "/reservations")) ->
  form_safe mobile_number = true ->
  map (fun request => url_href (fst request))
    (requests (trace (searchByPhone env net (VStr mobile_number) signal)))
  = [API_BASE_URL env ++ "/reservations?mobile_number=" ++ mobile_number]
  /\ map (fun request => url_href (fst request))
       (requests (trace (listReservations env parse fmt net
                           (VObj [("mobile_number", VStr mobile_number)]) signal)))
     = [API_BASE_URL env ++ "/reservations?mobile_number=" ++ mobile_number].
Proof.
  intros Hparse Hsafe. split.
  - pose proof (requests_run env parse fmt net (SearchByPhone (VStr mobile_number)) signal)
      as Hsearch.
    cbn in Hsearch. now rewrite Hsearch.
  - rewrite (listReservations_request env parse fmt net
               (VObj [("mobile_number", VStr mobile_number)]) signal
               (plain_url (API_BASE_URL env ++ "/reservations"))
               [("mobile_number", VStr mobile_number)]
               (UrlObject (plain_url (API_BASE_URL env ++ "/reservations"))
                  [("mobile_number", mobile_number)]) Hparse eq_refl eq_refl).
    cbn [map fst url_href plain_url before_query query_entries fragment app].
    unfold form_serialize. cbn [map fst snd String.concat].
    rewrite (form_encode_safe mobile_number Hsafe).
    change (form_encode "mobile_number") with "mobile_number".
    rewrite string_append_nil, string_append_assoc. reflexivity.
Qed.

Lemma searchByPhone_is_the_filtered_list_witness :
  map (fun request => url_href (fst request))
    (requests (trace (searchByPhone None (answering no_content) (VStr "555-1212") None)))
  = ["http://localhost:5001/reservations?mobile_number=555-1212"]
  /\ map (fun request => url_href (fst request))
       (requests (trace (listReservations None sample_parse sample_format
                           (answering no_content)
                           (VObj [("mobile_number", VStr "555-1212")]) None)))
     = ["http://localhost:5001/reservations?mobile_number=555-1212"].
Proof.
  apply (searchByPhone_is_the_filtered_list None sample_parse sample_format
           (answering no_content) "555-1212" None);
    reflexivity.
Defined.

(** ** The formatter steps *)

(** The list operation on the success path: the executor's value, taken
    through the two formatter steps. *)
Lemma listReservations_success
    (env : option string) (parse : string -> completion parsed_url)
    (fmt : value -> completion value) (net : network)
    (params : value) (signal : option nat) (u : url) (o : options)
    (r : response) (payload error data : value) :
  requests (trace (listReservations env parse fmt net params signal)) = [(u, o)] ->
  net u o = Return r -> status r <> 204 -> json r = Return payload ->
  Get payload "error" = Return error -> truthy error = false ->
  Get payload "data" = Return data ->
  listReservations env parse fmt net params signal
  = then_ (then_ ([Fetch u o; ResponseJson], Fulfilled data) fmt) fmt.
Proof.
  intros Hreq Hnet Hstatus Hjson Herror Hfalsy Hdata.
  exact (run_data env parse fmt net (ListReservations params) signal u o r payload error data
           Hreq Hnet Hstatus Hjson Herror Hfalsy Hdata).
Qed.

(** X17. Both formatter steps being the same function, the second changes
    nothing when that function leaves its own result as it is:
    [listReservations] then resolves with the data formatted once. *)
Theorem second_step_of_an_idempotent_formatter
    (env : option string) (parse : string -> completion parsed_url)
    (fmt : value -> completion value) (net : network)
    (params : value) (signal : option nat) (u : url) (o : options)
    (r : response) (payload error data shown : value) :
  requests (trace (listReservations env parse fmt net params signal)) = [(u, o)] ->
  net u o = Return r -> status r <> 204 -> json r = Return payload ->
  Get payload "error" = Return error -> truthy error = false ->
  Get payload "data" = Return data ->
  fmt data = Return shown -> fmt shown = Return shown ->
  listReservations env parse fmt net params signal
  = ([Fetch u o; ResponseJson], Fulfilled shown).
Proof.
  intros Hreq Hnet Hstatus Hjson Herror Hfalsy Hdata Hfirst Hsecond.
  rewrite (listReservations_success env parse fmt net params signal u o r payload error data
             Hreq Hnet Hstatus Hjson Herror Hfalsy Hdata).
  cbn. rewrite Hfirst. cbn. now rewrite Hsecond.
Qed.

Lemma second_step_of_an_idempotent_formatter_witness :
  listReservations None sample_parse sample_format (answering reservations_found)
    (VObj [("date", VStr "2023-01-01")]) None
  = ([Fetch (UrlObject (plain_url "http://localhost:5001/reservations") [("date", "2023-01-01")])
        {| opt_method := None; opt_headers := Some headers; opt_body := None;
           opt_signal := None |};
      ResponseJson],
     Fulfilled (VArr [VObj [("reservation_id", VNum 1);
                            ("reservation_date", VStr "2023-01-01");
                            ("reservation_time", VStr "18:00")]])).
Proof.
  apply (second_step_of_an_idempotent_formatter None sample_parse sample_format
           (answering reservations_found) (VObj [("date", VStr "2023-01-01")]) None _ _
           reservations_found (VObj [("data", one_reservation)]) VUndefined one_reservation);
    [reflexivity | reflexivity | discriminate | reflexivity | reflexivity | reflexivity
    | reflexivity | reflexivity | reflexivity].
Defined.

(** X18. An exception of a formatter step is outside the executor's
    [try]: [listReservations] rejects with it, and it is not logged, unlike
    a failure of the transport. *)
Theorem formatter_exception_is_not_logged
    (env : option string) (parse : string -> completion parsed_url)
    (fmt : value -> completion value) (net : network)
    (params : value) (signal : option nat) (u : url) (o : options)
    (r : response) (payload error data : value) (e : exn) :
  requests (trace (listReservations env parse fmt net params signal)) = [(u, o)] ->
  net u o = Return r -> status r <> 204 -> json r = Return payload ->
  Get payload "error" = Return error -> truthy error = false ->
  Get payload "data" = Return data ->
  fmt data = Throw e \/ (exists once, fmt data = Return once /\ fmt once = Throw e) ->
  listReservations env parse fmt net params signal = ([Fetch u o; ResponseJson], Rejected e).
Proof.
  intros Hreq Hnet Hstatus Hjson Herror Hfalsy Hdata Hthrows.
  rewrite (listReservations_success env parse fmt net params signal u o r payload error data
             Hreq Hnet Hstatus Hjson Herror Hfalsy Hdata).
  cbn. destruct Hthrows as [Hfirst | (once & Hfirst & Hsecond)]; rewrite Hfirst; cbn.
  - reflexivity.
  - now rewrite Hsecond.
Qed.

Lemma formatter_exception_is_not_logged_witness :
  listReservations None sample_parse strict_format
    (answering {| status := 200; json := Return (VObj [("data", VNull)]) |})
    (VObj [("date", VStr "2023-01-01")]) None
  = ([Fetch (UrlObject (plain_url "http://localhost:5001/reservations") [("date", "2023-01-01")])
        {| opt_method := None; opt_headers := Some headers; opt_body := None;
           opt_signal := None |};
      ResponseJson],
     Rejected (TypeError "Cannot read properties of null")).
Proof.
  apply (formatter_exception_is_not_logged None sample_parse strict_format
           (answering {| status := 200; json := Return (VObj [("data", VNull)]) |})
           (VObj [("date", VStr "2023-01-01")]) None _ _
           {| status := 200; json := Return (VObj [("data", VNull)]) |}
           (VObj [("data", VNull)]) VUndefined VNull);
    [reflexivity | reflexivity | discriminate | reflexivity | reflexivity | reflexivity
    | reflexivity | left; reflexivity].
Defined.

(** ** Reading *)

(** X19. The reading operations write their argument into the address as a
    template literal converts it, with no encoding, and issue a bare GET:
    the options hold the signal and nothing else. [readReservation] gets
    [<base>/reservations/<id>], [readTableByReservation] gets
    [<base>/tables/seated/<id>] and [searchByPhone] gets
    [<base>/reservations?mobile_number=<id>]. *)
Theorem reads_are_bare_gets
    (env : option string) (net : network) (id : value) (signal : option nat)
    (written : string) :
  ToString id = Return written ->
  let bare := {| opt_method := None; opt_headers := None; opt_body := None;
                 opt_signal := signal |} in
  http_method bare = "GET"
  /\ requests (trace (readReservation env net id signal))
     = [(UrlString (API_BASE_URL env ++ "/reservations/" ++ written), bare)]
  /\ requests (trace (readTableByReservation env net id signal))
     = [(UrlString (API_BASE_URL env ++ "/tables/seated/" ++ written), bare)]
  /\ requests (trace (searchByPhone env net id signal))
     = [(UrlString (API_BASE_URL env ++ "/reservations?mobile_number=" ++ written), bare)].
Proof.
  intros Hwritten bare.
  pose proof (requests_run env sample_parse (fun v => Return v) net (ReadReservation id) signal) as Hread.
  pose proof (requests_run env sample_parse (fun v => Return v) net (ReadTableByReservation id) signal)
    as Htable.
  pose proof (requests_run env sample_parse (fun v => Return v) net (SearchByPhone id) signal)
    as Hsearch.
  cbn in Hread, Htable, Hsearch. rewrite Hwritten in Hread, Htable, Hsearch.
  cbn in Hread, Htable, Hsearch. rewrite Hread, Htable, Hsearch. repeat split.
Qed.

Lemma reads_are_bare_gets_witness :
  http_method {| opt_method := None; opt_headers := None; opt_body := None;
                 opt_signal := Some 1%nat |} = "GET"
  /\ requests (trace (readReservation None (answering no_content) (VStr "7/status")
                        (Some 1%nat)))
     = [(UrlString "http://localhost:5001/reservations/7/status",
         {| opt_method := None; opt_headers := None; opt_body := None;
            opt_signal := Some 1%nat |})]
  /\ requests (trace (readTableByReservation None (answering no_content) (VStr "7/status")
                        (Some 1%nat)))
     = [(UrlString "http://localhost:5001/tables/seated/7/status",
         {| opt_method := None; opt_headers := None; opt_body := None;
            opt_signal := Some 1%nat |})]
  /\ requests (trace (searchByPhone None (answering no_content) (VStr "7/status")
                        (Some 1%nat)))
     = [(UrlString "http://localhost:5001/reservations?mobile_number=7/status",
         {| opt_method := None; opt_headers := None; opt_body := None;
            opt_signal := Some 1%nat |})].
Proof.
  apply (reads_are_bare_gets None (answering no_content) (VStr "7/status") (Some 1%nat)
           "7/status").
  reflexivity.
Defined.
